(** * passport-local-knex: session authentication over Express, Passport and Knex

    A shallow embedding of the authentication and authorisation policy of the
    repository: the verify callback of [src/server/auth/local.js], the helpers
    of [src/server/auth/_helpers.js], the session (de)serialisers of
    [src/server/auth/passport.js], the routes of [src/server/routes/auth.js]
    and [src/server/routes/user.js], and the [users] table of the migration.

    One HTTP request is handled at a time.  Its handling is a computation over
    a [world]: the [users] table, the request ([req.body], [req.query],
    [req.user], the passport session), the response object and a trace of the
    observable steps.  JavaScript exceptions are the [Throw] results of the
    monad [M]; a promise is a computation returning a [settled] value. *)

From Stdlib Require Import ZArith List Bool Lia.
From stdpp Require Import base option gmap strings pretty.

Open Scope string_scope.

(** ** JavaScript values and errors *)

Module JS.

(** [Number.isSafeInteger]: the integers a double holds exactly, those of
    magnitude below 2^53. *)
Definition safe (z : Z) : bool := (Z.abs z <? 2 ^ 53)%Z.

(** A JavaScript number is a double.  The numbers of the model are the safe
    integers, on which the arithmetic and the printing of doubles are those
    of the integers; fractions and larger magnitudes are not part of the
    model. *)
Record number : Type := Number {
  value : Z;
  is_safe : Is_true (safe value)
}.

(** The scalar JSON values a parsed body or query string can carry in a
    field.  A missing field ([undefined]) is the [None] of a map lookup;
    nested arrays and objects are not part of the model.  A string is the
    sequence of its characters, so that [String.length s] is [s.length]. *)
Inductive jsval : Type :=
| JNull
| JBool (b : bool)
| JNum (n : number)
| JStr (s : string).

(** [!v] is [negb (truthy v)]. *)
Definition truthy (v : jsval) : bool :=
  match v with
  | JNull => false
  | JBool b => b
  | JNum n => negb (value n =? 0)%Z
  | JStr s => negb (s =? "")
  end.

(** [String(n)], that is [Number.prototype.toString]: a safe integer is
    printed as its decimal numeral, with a minus sign when negative. *)
Definition decimal (n : number) : string := pretty (value n).

Definition typeof (v : option jsval) : string :=
  match v with
  | None => "undefined"
  | Some JNull => "object"
  | Some (JBool _) => "boolean"
  | Some (JNum _) => "number"
  | Some (JStr _) => "string"
  end.

Inductive error : Type :=
| TypeError (msg : string)
| Rejection (msg : string)      (* a plain object [{message: msg}] given to [reject] *)
| StoreError (msg : string)     (* an error raised by knex or the database *)
| BcryptError (msg : string)    (* [Error] thrown by bcryptjs *)
| PassportError (msg : string)  (* [Error] created by passport *)
| HeadersSent.                  (* express: the response was already sent *)

Definition message (e : error) : string :=
  match e with
  | TypeError m | Rejection m | StoreError m | BcryptError m | PassportError m => m
  | HeadersSent => "Can't set headers after they are sent."
  end.

Inductive result (A : Type) : Type :=
| Ok (a : A)
| Throw (e : error).
Arguments Ok {A} a.
Arguments Throw {A} e.

(** [v.length]: reading a property of [undefined] or [null] throws; a
    string has its length; a number or boolean has no such property, so the
    read yields [undefined] (here [None]). *)
Definition length_of (v : option jsval) : result (option nat) :=
  match v with
  | None => Throw (TypeError "Cannot read property 'length' of undefined")
  | Some JNull => Throw (TypeError "Cannot read property 'length' of null")
  | Some (JStr s) => Ok (Some (String.length s))
  | Some (JBool _) | Some (JNum _) => Ok None
  end.

(** [x < n] for [x] the result of a [.length] read: [undefined < n] is
    [false]. *)
Definition lt_js (x : option nat) (n : nat) : bool :=
  match x with
  | Some k => Nat.ltb k n
  | None => false
  end.

End JS.
Export JS.

(** ** The [users] table

    [exports.up] of the migration: an auto-incremented [id], a unique
    non-null [username], a non-null [password], a non-null [admin] flag with
    default [false], and the two nullable columns of [table.timestamps()]. *)

Module users.

Record row : Type := Row {
  id : Z;
  username : string;
  password : string;
  admin : bool;
  created_at : option Z;
  updated_at : option Z
}.

(** The defaults the table applies to the columns an [insert] leaves out. *)
Definition defaults (new_id : Z) (u p : string) : row :=
  {| id := new_id; username := u; password := p; admin := false;
     created_at := None; updated_at := None |}.

End users.

(** The database behind [knex]: the rows of [users] in insertion order with
    the next value of the [id] sequence, or a database that cannot be reached
    (every query is rejected). *)
Inductive db : Type :=
| Online (rows : list users.row) (next_id : Z)
| Offline (reason : string).

(** ** The world of one request *)

Inductive event : Type :=
| Select (column key : string)          (* a [where({column: key}).first()] reached the table *)
| SelectId (i : Z)                      (* a [where({id: i}).first()] reached the table *)
| Inserted (r : users.row)              (* a row was added *)
| Compared (s hash : string)            (* [bcrypt.compareSync(s, hash)] on two strings *)
| Sent (code : nat) (status : string)   (* a response was written *)
| Reached (handler : string)            (* the handler of a route started *)
| NextErr (e : error)                   (* [next(err)]: express's error path *)
| Unhandled (e : error).                (* a rejected promise nobody handles *)

Record world : Type := World {
  store : db;
  body : gmap string jsval;             (* [req.body] *)
  query : gmap string jsval;            (* [req.query] *)
  user : option users.row;              (* [req.user] *)
  session : option Z;                   (* [req.session.passport.user] *)
  statusCode : nat;                     (* [res.statusCode] *)
  sent : option (nat * string);         (* the response on the wire: code and [status] of its JSON body *)
  failure : option error;               (* the first error handed to express's error path *)
  entropy : nat -> string;              (* the salts [bcrypt.genSaltSync] will draw *)
  draws : nat;
  trace : list event
}.

Definition with_store (d : db) (w : world) : world :=
  World d (body w) (query w) (user w) (session w) (statusCode w) (sent w)
        (failure w) (entropy w) (draws w) (trace w).
Definition with_user (u : option users.row) (w : world) : world :=
  World (store w) (body w) (query w) u (session w) (statusCode w) (sent w)
        (failure w) (entropy w) (draws w) (trace w).
Definition with_session (s : option Z) (w : world) : world :=
  World (store w) (body w) (query w) (user w) s (statusCode w) (sent w)
        (failure w) (entropy w) (draws w) (trace w).
Definition with_statusCode (c : nat) (w : world) : world :=
  World (store w) (body w) (query w) (user w) (session w) c (sent w)
        (failure w) (entropy w) (draws w) (trace w).
Definition with_sent (r : option (nat * string)) (w : world) : world :=
  World (store w) (body w) (query w) (user w) (session w) (statusCode w) r
        (failure w) (entropy w) (draws w) (trace w).
Definition with_failure (e : option error) (w : world) : world :=
  World (store w) (body w) (query w) (user w) (session w) (statusCode w) (sent w)
        e (entropy w) (draws w) (trace w).
Definition with_draws (n : nat) (w : world) : world :=
  World (store w) (body w) (query w) (user w) (session w) (statusCode w) (sent w)
        (failure w) (entropy w) n (trace w).
Definition emit (e : event) (w : world) : world :=
  World (store w) (body w) (query w) (user w) (session w) (statusCode w) (sent w)
        (failure w) (entropy w) (draws w) (trace w ++ [e]).

(** ** Computations: state, exceptions and promises *)

Definition M (A : Type) : Type := world -> result A * world.

Definition ret {A} (a : A) : M A := fun w => (Ok a, w).

Definition bind {A B} (m : M A) (k : A -> M B) : M B :=
  fun w => match m w with
           | (Ok a, w') => k a w'
           | (Throw e, w') => (Throw e, w')
           end.

Definition throw {A} (e : error) : M A := fun w => (Throw e, w).
Definition get : M world := fun w => (Ok w, w).
Definition modify (f : world -> world) : M unit := fun w => (Ok tt, f w).
Definition lift {A} (r : result A) : M A := fun w => (r, w).

Notation "x <- m ;; k" := (bind m (fun x => k))
  (at level 100, m at next level, right associativity).
Notation "m ;; k" := (bind m (fun _ => k))
  (at level 100, right associativity).

(** A promise that has settled.  A computation of type [M (settled A)] is a
    function returning a promise: a [Throw] of the computation is an
    exception raised before the promise exists, a [Rejected] value is a
    rejected promise. *)
Inductive settled (A : Type) : Type :=
| Fulfilled (a : A)
| Rejected (e : error).
Arguments Fulfilled {A} a.
Arguments Rejected {A} e.

(** [new Promise(executor)] with an executor that resolves with what it
    computes, and the body of a [then] or [catch] callback: an exception
    rejects the promise. *)
Definition promise {A} (m : M A) : M (settled A) :=
  fun w => match m w with
           | (Ok a, w') => (Ok (Fulfilled a), w')
           | (Throw e, w') => (Ok (Rejected e), w')
           end.

(** [p.then(f)] for a callback returning a plain value. *)
Definition then_ {A B} (p : M (settled A)) (f : A -> M B) : M (settled B) :=
  s <- p ;;
  match s with
  | Fulfilled a => promise (f a)
  | Rejected e => ret (Rejected e)
  end.

(** [p.then(f)] for a callback returning a promise, which is adopted. *)
Definition then_promise {A B} (p : M (settled A)) (f : A -> M (settled B)) : M (settled B) :=
  s <- p ;;
  match s with
  | Fulfilled a =>
      r <- promise (f a) ;;
      match r with
      | Fulfilled s' => ret s'
      | Rejected e => ret (Rejected e)
      end
  | Rejected e => ret (Rejected e)
  end.

(** [p.catch(f)]. *)
Definition catch_ {A} (p : M (settled A)) (f : error -> M A) : M (settled A) :=
  s <- p ;;
  match s with
  | Fulfilled a => ret (Fulfilled a)
  | Rejected e => promise (f e)
  end.

(** A promise whose value nobody uses: a rejection stays unhandled. *)
Definition detach {A} (p : M (settled A)) : M unit :=
  s <- p ;;
  match s with
  | Fulfilled _ => ret tt
  | Rejected e => modify (emit (Unhandled e))
  end.

Definition run {A} (m : M A) (w : world) : world := snd (m w).

(** What a callback receives as its [user] argument. *)
Inductive uval : Type :=
| UUndefined
| UNull
| UFalse
| URow (r : users.row).

(** A node-style callback [(err, user) => ...]. *)
Definition callback : Type := option error -> uval -> M unit.

(** A value handed to a JavaScript function as a positional argument: a
    missing argument, a JSON scalar, the request object, or a callback. *)
Inductive arg : Type :=
| AUndefined
| AVal (v : jsval)
| AReq
| AFun (k : callback).

Definition arg_of (v : option jsval) : arg :=
  match v with
  | Some x => AVal x
  | None => AUndefined
  end.

Definition typeof_arg (a : arg) : string :=
  match a with
  | AUndefined => "undefined"
  | AVal v => typeof (Some v)
  | AReq => "object"
  | AFun _ => "function"
  end.

(** [f(err, user)]: calling something that is not a function throws. *)
Definition call (f : arg) (err : option error) (u : uval) : M unit :=
  match f with
  | AFun k => k err u
  | _ => throw (TypeError "done is not a function")
  end.

(** What the client of the request observes. *)
Inductive outcome : Type :=
| Response (code : nat) (status : string)
| Failed (e : error)
| Pending.

Definition observe (w : world) : outcome :=
  match sent w with
  | Some (c, s) => Response c s
  | None => match failure w with
            | Some e => Failed e
            | None => Pending
            end
  end.

(** ** express 4: the response object and the layers of a route *)

Module res.

(** [res.status(code)]. *)
Definition status (code : nat) : M unit := modify (with_statusCode code).

(** [res.json({status: msg})]: sends the body under the current status
    code; a second send throws, and the first response stays the one on
    the wire. *)
Definition json (msg : string) : M unit :=
  w <- get ;;
  match sent w with
  | Some _ => throw HeadersSent
  | None =>
      modify (fun w' => emit (Sent (statusCode w') msg)
                          (with_sent (Some (statusCode w', msg)) w'))
  end.

End res.

Module express.

(** [next(err)]: the remaining handlers of the route are skipped and the
    error goes to the application's error handling, which is not part of
    the routes; the world keeps the first such error. *)
Definition next_err (e : error) : M unit :=
  modify (fun w => emit (NextErr e)
                     (match failure w with
                      | Some _ => w
                      | None => with_failure (Some e) w
                      end)).

(** [Layer.prototype.handle_request]: the handler runs under a
    [try]/[catch] whose [catch] calls [next(err)]. *)
Definition layer (fn : M unit) : M unit :=
  fun w => match fn w with
           | (Throw e, w') => next_err e w'
           | r => r
           end.

(** A handler [(req, res, next) => ...]; [req] and [res] are in the world. *)
Definition middleware : Type := M unit -> M unit.

(** The handlers registered for one path run in order; each gets the rest
    of the stack as its [next]. *)
Fixpoint route (stack : list middleware) : M unit :=
  match stack with
  | [] => ret tt
  | fn :: rest => layer (fn (route rest))
  end.

End express.

(** ** knex: queries on [users] *)

Module knex.

(** How a JavaScript value travels as the binding of a query. *)
Inductive binding : Type :=
| Text (s : string)
| Null
| Unbindable.

Definition binding_of (a : arg) : binding :=
  match a with
  | AVal (JStr s) => Text s
  | AVal (JNum n) => Text (decimal n)
  | AVal (JBool b) => Text (if b then "true" else "false")
  | AVal JNull => Null
  | AUndefined | AReq | AFun _ => Unbindable
  end.

Definition by_username (s : string) (r : users.row) : bool :=
  users.username r =? s.

Definition by_id (i : Z) (r : users.row) : bool :=
  (users.id r =? i)%Z.

(** [knex('users').where({username: v}).first()]: resolves with the first
    row whose username is exactly [v], or with [undefined]. *)
Definition where_username_first (v : arg) : M (settled (option users.row)) :=
  w <- get ;;
  match store w with
  | Offline reason => ret (Rejected (StoreError reason))
  | Online rows _ =>
      match binding_of v with
      | Text s =>
          modify (emit (Select "username" s)) ;;
          ret (Fulfilled (find (by_username s) rows))
      | Null => ret (Fulfilled None)
      | Unbindable => ret (Rejected (StoreError "cannot serialize the binding"))
      end
  end.

(** [knex('users').where({id}).first()]. *)
Definition where_id_first (i : Z) : M (settled (option users.row)) :=
  w <- get ;;
  match store w with
  | Offline reason => ret (Rejected (StoreError reason))
  | Online rows _ =>
      modify (emit (SelectId i)) ;;
      ret (Fulfilled (find (by_id i) rows))
  end.

(** A row offered to the table was refused by a constraint.  The row had
    been formed, so its [id] was drawn, and a sequence does not give a value
    back: the next row gets the [id] after it. *)
Definition refuse {A} (rows : list users.row) (next : Z) (msg : string) : M (settled A) :=
  modify (with_store (Online rows (next + 1)%Z)) ;;
  ret (Rejected (StoreError msg)).

(** The value of a column in an [insert]: an [undefined] field is sent as
    [DEFAULT], which is [null] for a column without a default. *)
Definition inserted_binding_of (a : arg) : binding :=
  match a with
  | AUndefined => Null
  | _ => binding_of a
  end.

(** [knex('users').insert({username: v, password: hash}).returning('*')]:
    the columns left out take the defaults of the table.  A binding that
    cannot be serialised, and a text longer than the 255 characters of the
    column (the length coercion of a bound parameter is evaluated when the
    statement is planned), are rejected before a row is formed; the
    uniqueness and not-null constraints of [username] refuse the row once it
    is formed. *)
Definition insert_returning (v : arg) (hash : string) : M (settled (list users.row)) :=
  w <- get ;;
  match store w with
  | Offline reason => ret (Rejected (StoreError reason))
  | Online rows next =>
      match inserted_binding_of v with
      | Text s =>
          if Nat.ltb 255 (String.length s) then
            ret (Rejected (StoreError "value too long for type character varying(255)"))
          else if existsb (by_username s) rows then
            refuse rows next "duplicate key value violates unique constraint"
          else
            let r := users.defaults next s hash in
            modify (fun w' => emit (Inserted r)
                                (with_store (Online (rows ++ [r]) (next + 1)%Z) w')) ;;
            ret (Fulfilled [r])
      | Null =>
          refuse rows next "null value in column username violates not-null constraint"
      | Unbindable => ret (Rejected (StoreError "cannot serialize the binding"))
      end
  end.

End knex.

(** ** bcryptjs

    The key derivation itself is outside the repository: [_hash s salt] is
    the string bcrypt computes from a plaintext and a salt string, or the
    error it throws on a salt it cannot parse. *)

Class Bcrypt : Type := { _hash : string -> string -> result string }.

Module bcrypt.
Section with_bcrypt.
Context `{Bcrypt}.

(** [bcrypt.genSaltSync()]: a fresh random salt. *)
Definition genSaltSync : M string :=
  w <- get ;;
  modify (with_draws (S (draws w))) ;;
  ret (entropy w (draws w)).

(** [bcrypt.hashSync(s, salt)] with a string salt. *)
Definition hashSync (s : arg) (salt : string) : M string :=
  match s with
  | AVal (JStr p) => lift (_hash p salt)
  | _ => throw (BcryptError ("Illegal arguments: " ++ typeof_arg s ++ ", string"))
  end.

(** [bcrypt.compareSync(s, hash)]: a stored value that is not 60
    characters long never matches; otherwise [s] is hashed again under the
    salt the stored value starts with. *)
Definition compareSync (s : arg) (hash : string) : M bool :=
  match s with
  | AVal (JStr p) =>
      modify (emit (Compared p hash)) ;;
      if negb (Nat.eqb (String.length hash) 60) then ret false
      else
        h <- hashSync s (String.substring 0 (String.length hash - 31) hash) ;;
        ret (h =? hash)
  | _ => throw (BcryptError ("Illegal arguments: " ++ typeof_arg s ++ ", string"))
  end.

End with_bcrypt.
End bcrypt.

(** ** passport 0.3.2 *)

Module passport.

(** A function given to [passport.serializeUser(fn)], [(user, done) => ...],
    and one given to [passport.deserializeUser(fn)], [(id, done) => ...]. *)
Definition serializer : Type :=
  option users.row -> (option JS.error -> option Z -> M unit) -> M unit.
Definition deserializer : Type := Z -> callback -> M unit.

(** The [_serializers] and [_deserializers] of the authenticator, in the
    order of their registration. *)
Record registry : Type := Registry {
  _serializers : list serializer;
  _deserializers : list deserializer
}.

(** [new Authenticator()]: nothing is registered. *)
Definition fresh : registry := Registry [] [].

(** [Authenticator.prototype.serializeUser(user, done)]: the serialisers run
    in turn until one yields an error or an object; when none is left the
    authenticator reports that it failed.  What a serialiser throws goes to
    [done]. *)
Fixpoint serializeUser (stack : list serializer) (u : option users.row)
    (done : option JS.error -> option Z -> M unit) : M unit :=
  match stack with
  | [] => done (Some (PassportError "Failed to serialize user into session")) None
  | layer :: rest =>
      fun w => match layer u (fun e o =>
                                match e, o with
                                | None, None => serializeUser rest u done
                                | _, _ => done e o
                                end) w with
               | (Throw ex, w') => done (Some ex) None w'
               | r => r
               end
  end.

(** [Authenticator.prototype.deserializeUser(obj, done)]: an error or a
    user ends the chain; [null] or [false] means the user is gone;
    [undefined] asks the next deserialiser; when none is left the
    authenticator reports that it failed. *)
Fixpoint deserializeUser (stack : list deserializer) (su : Z) (done : callback) : M unit :=
  match stack with
  | [] => done (Some (PassportError "Failed to deserialize user out of session")) UUndefined
  | layer :: rest =>
      fun w => match layer su (fun e u =>
                                 match e, u with
                                 | Some _, _ => done e u
                                 | None, URow _ => done None u
                                 | None, UNull | None, UFalse => done None UFalse
                                 | None, UUndefined => deserializeUser rest su done
                                 end) w with
               | (Throw ex, w') => done (Some ex) UUndefined w'
               | r => r
               end
  end.

(** [passport.session()], that is [SessionStrategy.prototype.authenticate]
    as a middleware: without a user in the session the request passes; an
    error of the deserialisation goes to [next(err)]; no user removes the
    session entry; a user becomes [req.user]. *)
Definition session (reg : registry) : express.middleware :=
  fun next =>
    w <- get ;;
    match session w with
    | None => next
    | Some su =>
        deserializeUser (_deserializers reg) su
          (fun err u =>
             match err with
             | Some e => express.next_err e
             | None =>
                 match u with
                 | URow r => modify (with_user (Some r)) ;; next
                 | _ => modify (with_session None) ;; next
                 end
             end)
    end.

(** The three actions a strategy ends with. *)
Record actions : Type := Actions {
  success : users.row -> M unit;
  fail : M unit;
  error : JS.error -> M unit
}.

(** [passport.authenticate(name, callback)] for a single strategy and a
    custom callback: every action of the strategy is reported to the
    callback, and nothing else is done for the request. *)
Definition authenticate (strategy : actions -> M unit) (cb : callback) : M unit :=
  strategy {| success := fun u => cb None (URow u);
              fail := cb None UFalse;
              error := fun e => cb (Some e) UUndefined |}.

(** [req.logIn(user, done)]: the user becomes [req.user] and what the
    serialisers yield becomes the session entry; on an error [req.user] is
    reset. *)
Definition logIn (reg : registry) (u : option users.row)
    (done : option JS.error -> M unit) : M unit :=
  modify (with_user u) ;;
  serializeUser (_serializers reg) u
    (fun err obj =>
       match err with
       | Some e => modify (with_user None) ;; done (Some e)
       | None => modify (with_session obj) ;; done None
       end).

(** [req.logout()]. *)
Definition logout : M unit :=
  modify (with_user None) ;; modify (with_session None).

End passport.

(** ** src/server/auth/passport.js: the session serialisers *)

Module passport_js.

(** [(user, done) => { done(null, user.id); }] *)
Definition serializeUser : passport.serializer :=
  fun u done =>
    match u with
    | Some r => done None (Some (users.id r))
    | None => throw (TypeError "Cannot read property 'id' of undefined")
    end.

(** [(id, done) => { ... }]: the row is fetched again; a missing row
    reaches [done] as [undefined], a rejected query as [done(err, null)]. *)
Definition deserializeUser : passport.deserializer :=
  fun i done =>
    detach
      (catch_
         (then_ (knex.where_id_first i)
            (fun found =>
               done None (match found with
                          | Some r => URow r
                          | None => UUndefined
                          end)))
         (fun err => done (Some err) UNull)).

(** The function the module exports,
    [() => { passport.serializeUser(...); passport.deserializeUser(...); }]:
    a call adds the two functions to the registry of the authenticator. *)
Definition init (reg : passport.registry) : passport.registry :=
  passport.Registry
    (passport._serializers reg ++ [serializeUser])%list
    (passport._deserializers reg ++ [deserializeUser])%list.

End passport_js.

(** ** passport-local 1.0.0 *)

Module LocalStrategy.

(** The options object; a field left out is [None]. *)
Record options : Type := Options {
  usernameField : option string;
  passwordField : option string;
  passReqToCallback : bool
}.

(** [lookup(obj, field)] for a field name without brackets: a missing
    field and a [null] one both give [null]. *)
Definition lookup (obj : gmap string jsval) (field : string) : jsval :=
  match obj !! field with
  | Some v => v
  | None => JNull
  end.

(** [a || b] *)
Definition or_js (a b : jsval) : jsval := if truthy a then a else b.

(** [options.field || name]: a field left out, or empty, gives the default
    name. *)
Definition field_or (name : string) (field : option string) : string :=
  match field with
  | Some (String c rest) => String c rest
  | Some EmptyString | None => name
  end.

(** [Strategy.prototype.authenticate]: the credentials are read from the
    body, then from the query string; when one is missing the strategy
    fails; otherwise the verify callback runs, with the request as an
    extra first argument when [passReqToCallback] is set.  The verify
    callback of the application names three parameters, so of four
    arguments it sees the first three. *)
Definition authenticate (o : options) (verify : arg -> arg -> arg -> M unit)
    (act : passport.actions) : M unit :=
  w <- get ;;
  let ufield := field_or "username" (usernameField o) in
  let pfield := field_or "password" (passwordField o) in
  let username := or_js (lookup (body w) ufield) (lookup (query w) ufield) in
  let password := or_js (lookup (body w) pfield) (lookup (query w) pfield) in
  if negb (truthy username) || negb (truthy password) then passport.fail act
  else
    let verified : callback :=
      fun err u =>
        match err with
        | Some e => passport.error act e
        | None =>
            match u with
            | URow r => passport.success act r
            | _ => passport.fail act
            end
        end in
    fun w' =>
      match (if passReqToCallback o
             then verify AReq (AVal username) (AVal password)
             else verify (AVal username) (AVal password) (AFun verified)) w' with
      | (Throw ex, w'') => passport.error act ex w''
      | r => r
      end.

End LocalStrategy.

(** ** The application *)

Inductive http_object : Type := the_req | the_res.

Section application.
Context `{Bcrypt}.

(** *** src/server/auth/_helpers.js *)

Definition comparePass (userPassword : arg) (databasePassword : string) : M bool :=
  bcrypt.compareSync userPassword databasePassword.

Definition loginRequired : express.middleware :=
  fun next =>
    w <- get ;;
    match user w with
    | None => res.status 401 ;; res.json "Please log in"
    | Some _ => next
    end.

(** The first test writes a response and does not return; reading
    [req.user.username] of a missing user then throws. *)
Definition adminRequired : express.middleware :=
  fun next =>
    w <- get ;;
    (match user w with
     | None => res.status 401 ;; res.json "Please log in"
     | Some _ => ret tt
     end) ;;
    match user w with
    | None => throw (TypeError "Cannot read property 'username' of undefined")
    | Some u =>
        detach
          (catch_
             (then_ (knex.where_username_first (AVal (JStr (users.username u))))
                (fun found =>
                   match found with
                   | None => throw (TypeError "Cannot read property 'admin' of undefined")
                   | Some r =>
                       (if negb (users.admin r)
                        then res.status 401 ;; res.json "You are not authorized"
                        else ret tt) ;;
                       next
                   end))
             (fun err => res.status 500 ;; res.json "Something bad happened"))
    end.

Definition loginRedirect : express.middleware :=
  fun next =>
    w <- get ;;
    match user w with
    | Some _ => res.status 401 ;; res.json "You are already logged in"
    | None => next
    end.

(** [reject(...)] is the last statement of its branch, so it is the
    exception of the executor. *)
Definition handleErrors : M (settled unit) :=
  promise
    (w <- get ;;
     ulen <- lift (length_of (body w !! "username")) ;;
     if lt_js ulen 6 then
       throw (Rejection "Username must be longer than 6 characters")
     else
       plen <- lift (length_of (body w !! "password")) ;;
       if lt_js plen 6 then
         throw (Rejection "Password must be longer than 6 characters")
       else ret tt).

(** The promise resolves with the inserted rows, or with [undefined]
    ([None]) once the [catch] has answered 400. *)
Definition createUser : M (settled (option (list users.row))) :=
  catch_
    (then_promise handleErrors
       (fun _ =>
          w <- get ;;
          salt <- bcrypt.genSaltSync ;;
          hash <- bcrypt.hashSync (arg_of (body w !! "password")) salt ;;
          then_ (knex.insert_returning (arg_of (body w !! "username")) hash)
            (fun rows => ret (Some rows))))
    (fun err => res.status 400 ;; res.json (message err) ;; ret None).

(** *** src/server/auth/local.js *)

(** The authenticator the module configures and exports.  The module binds
    the function of [passport.js] ([const init = require('./init')]) and no
    statement calls it, so the registry is the one the authenticator was
    created with. *)
Definition authenticator : passport.registry := passport.fresh.

Definition options : LocalStrategy.options :=
  {| LocalStrategy.usernameField := Some "email";
     LocalStrategy.passwordField := Some "password";
     LocalStrategy.passReqToCallback := true |}.

(** [const options = {};] of the tutorial's [local.js]. *)
Definition options_tutorial : LocalStrategy.options :=
  {| LocalStrategy.usernameField := None;
     LocalStrategy.passwordField := None;
     LocalStrategy.passReqToCallback := false |}.

(** The verify callback [(username, password, done) => ...]. *)
Definition verify (username password done : arg) : M unit :=
  detach
    (catch_
       (then_ (knex.where_username_first username)
          (fun found =>
             match found with
             | None => call done None UFalse
             | Some u =>
                 ok <- comparePass password (users.password u) ;;
                 if negb ok then call done None UFalse
                 else call done None (URow u)
             end))
       (fun err => call done (Some err) UUndefined)).

(** *** src/server/routes/auth.js *)

Definition handleResponse (code : nat) (statusMsg : string) : M unit :=
  res.status code ;; res.json statusMsg.

(** [handleLogin(req, user)]: only the request has a [login] method. *)
Definition handleLogin (req : http_object) (u : option users.row) : M (settled unit) :=
  promise
    (match req with
     | the_res => throw (TypeError "req.login is not a function")
     | the_req =>
         passport.logIn authenticator u
           (fun err => match err with
                       | Some e => throw e
                       | None => ret tt
                       end)
     end).

(** The handler of [POST /auth/register]; [handleLogin] is called on
    [res], and its promise is not returned to the chain. *)
Definition register : express.middleware :=
  fun _ =>
    modify (emit (Reached "POST /auth/register")) ;;
    detach
      (catch_
         (then_
            (then_ createUser
               (fun rows =>
                  match rows with
                  | None => throw (TypeError "Cannot read property '0' of undefined")
                  | Some l => detach (handleLogin the_res (head l))
                  end))
            (fun _ => handleResponse 200 "success"))
         (fun err => handleResponse 500 "error")).

Definition truthy_user (u : uval) : bool :=
  match u with
  | URow _ => true
  | _ => false
  end.

(** The handler of [POST /auth/login] for a strategy built with [o]. *)
Definition login (o : LocalStrategy.options) : express.middleware :=
  fun _ =>
    modify (emit (Reached "POST /auth/login")) ;;
    passport.authenticate (LocalStrategy.authenticate o verify)
      (fun err u =>
         (match err with
          | Some _ => handleResponse 500 "error"
          | None => ret tt
          end) ;;
         (if negb (truthy_user u) then handleResponse 404 "User not found" else ret tt) ;;
         (if truthy_user u then handleResponse 200 "success" else ret tt)).

Definition logout : express.middleware :=
  fun _ =>
    modify (emit (Reached "GET /auth/logout")) ;;
    passport.logout ;;
    handleResponse 200 "success".

Definition post_register : M unit := express.route [loginRedirect; register].
Definition post_login (o : LocalStrategy.options) : M unit :=
  express.route [loginRedirect; login o].
Definition get_logout : M unit := express.route [loginRequired; logout].

(** *** src/server/routes/user.js *)

Definition user_handler : express.middleware :=
  fun _ => modify (emit (Reached "GET /user")) ;; handleResponse 200 "success".

Definition admin_handler : express.middleware :=
  fun _ => modify (emit (Reached "GET /admin")) ;; handleResponse 200 "success".

Definition get_user : M unit := express.route [loginRequired; user_handler].
Definition get_admin : M unit := express.route [adminRequired; admin_handler].

(** A route behind [app.use(passport.session())]. *)
Definition with_session_middleware (stack : list express.middleware) : M unit :=
  express.route (passport.session authenticator :: stack).

End application.

(** ** The contract of the credential verifier *)

Module contract.

(** The outcomes of [verify(username, password)]. *)
Inductive Outcome : Type :=
| NoSuchUser
| BadPassword
| Authenticated (u : users.row).

(** What [done] receives as its user for an outcome: the verify callback
    reports both failures as [done(null, false)]. *)
Definition reported (o : Outcome) : uval :=
  match o with
  | NoSuchUser | BadPassword => UFalse
  | Authenticated u => URow u
  end.

End contract.

(** The value [comparePass] returns on two strings, or the error it throws. *)
Definition compare_result `{Bcrypt} (p hash : string) : result bool :=
  if negb (Nat.eqb (String.length hash) 60) then Ok false
  else match _hash p (String.substring 0 (String.length hash - 31) hash) with
       | Ok h => Ok (h =? hash)
       | Throw e => Throw e
       end.

(** The body of a login or register request: [{username: u, password: p}]. *)
Definition credentials (u p : string) : gmap string jsval :=
  {[ "username" := JStr u; "password" := JStr p ]}.

(** ** Sample data: the two seeded users, with a stand-in for bcrypt *)

Module sample.

Definition salt : string := "$2a$10$abcdefghijklmnopqrstuv".

(** Thirty-one characters derived from the plaintext. *)
Definition digest (s : string) : string :=
  String.substring 0 31 (s ++ "...............................").

Definition hasher : Bcrypt := {| _hash := fun s slt => Ok (slt ++ digest s) |}.

Definition hash (p : string) : string := salt ++ digest p.

Definition jeremy : users.row :=
  users.Row 1 "jeremy" (hash "johnson123") false None None.

Definition kelly : users.row :=
  users.Row 2 "kelly" (hash "bryant123") true None None.

Definition seeded : db := Online [jeremy; kelly] 3.

(** A request that has reached the router. *)
Definition request (d : db) (b q : gmap string jsval)
    (u : option users.row) (s : option Z) : world :=
  {| store := d; body := b; query := q; user := u; session := s;
     statusCode := 200; sent := None; failure := None;
     entropy := fun _ => salt; draws := 0; trace := [] |}.

End sample.

(** An anonymous login request that submits [u] and [p] as the [username]
    and [password] fields of its JSON body, the request of the tutorial's
    tests: the body has no [email] field and there is no query string. *)
Definition submits (u p : string) (w : world) : Prop :=
  user w = None /\ sent w = None /\
  body w !! "username" = Some (JStr u) /\
  body w !! "password" = Some (JStr p) /\
  body w !! "email" = None /\
  query w = ∅.

(** Requests used as examples. *)
Module examples.

(** [GET /user] with a session entry while the database is down. *)
Definition offline_session : world :=
sample.request (Offline "connection refused") ∅ ∅ None (Some 1%Z).

(** [GET /user] with a session entry whose row has been deleted. *)
Definition stale_session : world :=
sample.request sample.seeded ∅ ∅ None (Some 7%Z).

(** [POST /auth/login?email=jeremy] with the credentials of a stored user
  in the JSON body. *)
Definition login_with_query_email : world :=
sample.request sample.seeded (credentials "jeremy" "johnson123")
  {[ "email" := JStr "jeremy" ]} None None.

(** [POST /auth/login] with the credentials of a stored user. *)
Definition login_jeremy : world :=
sample.request sample.seeded (credentials "jeremy" "johnson123") ∅ None None.


(** [POST /auth/register] asking for the [admin] flag. *)
Definition register_michael : world :=
sample.request sample.seeded
  (<[ "admin" := JBool true ]> (credentials "michael" "herman1")) ∅ None None.


(** A request of the seeded non-administrator, and of the administrator. *)
Definition as_jeremy : world :=
sample.request sample.seeded (credentials "michael" "herman") ∅
  (Some sample.jeremy) (Some 1%Z).
Definition as_kelly : world :=
sample.request sample.seeded ∅ ∅ (Some sample.kelly) (Some 2%Z).

End examples.

(** ** Properties kept along a request *)

(** [P] holds after [m] whenever it held before, however [m] ends. *)
Definition preserves {A : Type} (P : world -> Prop) (m : M A) : Prop :=
  forall w, P w -> P (snd (m w)).


(** The table is reachable and still starts with the rows [rows0], in
    their order. *)
Definition keeps_rows (rows0 : list users.row) (d : db) : Prop :=
  match d with
  | Online rows _ => exists extra, rows = (rows0 ++ extra)%list
  | Offline _ => False
  end.

(** The handlers registered for the five routes: [/auth/register],
    [/auth/login], [/auth/logout], [/user] and [/admin]. *)
Definition routes `{Bcrypt} (o : LocalStrategy.options) : list (list express.middleware) :=
  [[loginRedirect; register]; [loginRedirect; login o]; [loginRequired; logout];
   [loginRequired; user_handler]; [adminRequired; admin_handler]].

(** The next request of the same client and its fresh response object: the
    table and the session entry are those the previous request left, and
    [req.user] is for [passport.session()] to set again. *)
Definition follow_up (w : world) : world :=
  {| store := store w; body := ∅; query := ∅; user := None;
     session := session w; statusCode := 200; sent := None; failure := None;
     entropy := entropy w; draws := draws w; trace := [] |}.

(** [GET /user] as the application serves it. *)
Definition app_get_user : M unit :=
  with_session_middleware [loginRequired; user_handler].

(** ** The seed file of [users] *)

Module seeds.
Section with_bcrypt.
Context `{Bcrypt}.

(** [knex('users').del()]: every row goes, the sequence of [id] stays. *)
Definition del : M (settled unit) :=
  w <- get ;;
  match store w with
  | Offline reason => ret (Rejected (StoreError reason))
  | Online _ next => modify (with_store (Online [] next)) ;; ret (Fulfilled tt)
  end.

(** [knex('users').insert({username, password, admin})] with string
    values; a field left out takes the default of the table. *)
Definition insert (name hash : string) (adm : option bool) : M (settled unit) :=
  w <- get ;;
  match store w with
  | Offline reason => ret (Rejected (StoreError reason))
  | Online rows next =>
      if Nat.ltb 255 (String.length name) then
        ret (Rejected (StoreError "value too long for type character varying(255)"))
      else if existsb (knex.by_username name) rows then
        knex.refuse rows next "duplicate key value violates unique constraint"
      else
        let r := {| users.id := next; users.username := name;
                    users.password := hash;
                    users.admin := default false adm;
                    users.created_at := None; users.updated_at := None |} in
        modify (fun w' => emit (Inserted r)
                            (with_store (Online (rows ++ [r]) (next + 1)%Z) w')) ;;
        ret (Fulfilled tt)
  end.

(** [exports.seed]: the table is emptied, then [jeremy] is inserted, then
    [kelly] with [admin: true], each under a hash with a salt of its own. *)
Definition seed : M (settled unit) :=
  then_promise
    (then_promise del
       (fun _ =>
          salt <- bcrypt.genSaltSync ;;
          hash <- bcrypt.hashSync (AVal (JStr "johnson123")) salt ;;
          insert "jeremy" hash None))
    (fun _ =>
       salt <- bcrypt.genSaltSync ;;
       hash <- bcrypt.hashSync (AVal (JStr "bryant123")) salt ;;
       insert "kelly" hash (Some true)).

End with_bcrypt.
End seeds.

Module more_examples.

(** [POST /auth/login] with the name and the password of a stored user in
    the fields the strategy of [local.js] reads. *)
Definition login_with_email : world :=
  sample.request sample.seeded
    {[ "email" := JStr "jeremy"; "password" := JStr "johnson123" ]} ∅ None None.


(** [POST /auth/register] with a number as the username. *)
Definition register_number : world :=
  sample.request sample.seeded
    {[ "username" := JNum (Number 5 I); "password" := JStr "herman1" ]} ∅ None None.

(** [POST /auth/register] without a [username] field. *)
Definition register_no_username : world :=
  sample.request sample.seeded {[ "password" := JStr "herman1" ]} ∅ None None.

(** [POST /auth/register] while the database is down, and for a username
    that is taken. *)
Definition register_offline : world :=
  sample.request (Offline "connection refused")
    (credentials "michael" "herman1") ∅ None None.
Definition register_taken : world :=
  sample.request sample.seeded (credentials "jeremy" "herman1") ∅ None None.

(** [POST /auth/login] while the database is down. *)
Definition login_offline : world :=
  sample.request (Offline "connection refused")
    (credentials "jeremy" "johnson123") ∅ None None.

(** A request that carries the session entry of the seeded user [jeremy]. *)
Definition session_of_jeremy : world :=
  sample.request sample.seeded ∅ ∅ None (Some 1%Z).

(** An anonymous request without a body. *)
Definition anonymous : world :=
  sample.request sample.seeded ∅ ∅ None None.

End more_examples.

(** * Proof automation *)

(** Symbolic execution of a handler on a world given by its fields. *)
Ltac expose w :=
  destruct w as [st bd qr us ss sc se fl en dr tr];
  cbn [store body query user session statusCode sent failure
       entropy draws trace] in *.

Ltac exec :=
  cbv -[find existsb app lookup gmap_lookup String.eq_dec String.countable
        Nat.ltb Nat.eqb String.length String.eqb String.substring
        String.append Z.add Z.eqb decimal
        knex.by_username knex.by_id users.username users.admin
        users.password users.id users.defaults _hash comparePass].

(** Computing around [createUser]. *)
Ltac keep_createUser :=
  cbv -[find existsb app lookup gmap_lookup String.eq_dec String.countable
        Nat.ltb Nat.eqb String.length String.eqb String.substring
        String.append Z.add Z.eqb decimal
        knex.by_username knex.by_id users.username users.admin
        users.password users.id users.defaults _hash comparePass createUser].

Ltac keep_createUser_in Hyp :=
  cbv -[find existsb app lookup gmap_lookup String.eq_dec String.countable
        Nat.ltb Nat.eqb String.length String.eqb String.substring
        String.append Z.add Z.eqb decimal
        knex.by_username knex.by_id users.username users.admin
        users.password users.id users.defaults _hash comparePass createUser] in Hyp.

(** Rewriting with the case equations at hand, then computing on. *)
Ltac steps :=
  exec;
  repeat (progress (repeat match goal with
                           | E : ?t = _ |- context [?t] => rewrite E
                           end); exec).

(** A branch of [createUser] that ends in the 400 response. *)
Ltac refused :=
  right; unfold createUser; steps; do 2 eexists; repeat split; reflexivity.

(** * Properties *)

Section properties.
Context `{Bcrypt}.

(** [comparePass] on two strings records the comparison and returns
    [compare_result]. *)
Lemma comparePass_result (p hash : string) (w : world) :
  comparePass (AVal (JStr p)) hash w
  = (compare_result p hash, emit (Compared p hash) w).
Proof.
  unfold comparePass, bcrypt.compareSync, compare_result, bind, modify, ret.
  destruct (negb (Nat.eqb (String.length hash) 60)); [reflexivity |].
  unfold bcrypt.hashSync, lift.
  destruct (_hash p _); reflexivity.
Qed.

Lemma find_by_username_sound (rows : list users.row) (s : string) (r : users.row) :
  find (knex.by_username s) rows = Some r -> In r rows /\ users.username r = s.
Proof.
  intros Hf. apply find_some in Hf as [Hin Heq]. split; [exact Hin |].
  unfold knex.by_username in Heq. now apply String.eqb_eq.
Qed.

(** A callback that returns normally is determined by the world it leaves. *)
Lemma returns_normally (done : callback) :
  (forall e u w0, fst (done e u w0) = Ok tt) ->
  forall e u w0, done e u w0 = (Ok tt, snd (done e u w0)).
Proof.
  intros Hdone e u w0. specialize (Hdone e u w0).
  destruct (done e u w0) as [r w1]. simpl in *. now subst.
Qed.

(** The response is written once: a second [res.json] throws and leaves
    the world as it is. *)
Lemma json_after_send (msg : string) (w : world) (r : nat * string) :
  sent w = Some r -> res.json msg w = (Throw HeadersSent, w).
Proof.
  intros Hs. unfold res.json, bind, get. now rewrite Hs.
Qed.

(** A layer of a route never throws: what its handler throws goes to
    [next(err)]. *)
Lemma layer_returns (fn : M unit) (w : world) :
  fst (express.layer fn w) = Ok tt.
Proof.
  unfold express.layer. destruct (fn w) as [[[]|e] w']; reflexivity.
Qed.

Lemma route_returns (stack : list express.middleware) (w : world) :
  fst (express.route stack w) = Ok tt.
Proof.
  destruct stack as [|fn rest]; [reflexivity | apply layer_returns].
Qed.

(** The verify callback called with the three arguments it names, a
    username, a password and a [done] that returns normally, on a reachable
    store: it makes one [where({username}).first()] query keyed by that
    username; without a row it reports [NoSuchUser] ([done(null, false)]);
    with a row, which carries exactly that username, it compares the
    password with the stored hash once and reports [BadPassword]
    ([done(null, false)]) when [comparePass] returns [false] and
    [Authenticated] with the whole stored row ([done(null, user)]) when it
    returns [true]. *)
Lemma verify_follows_contract (w : world) (rows : list users.row) (next : Z)
    (username pw : string) (done : callback) :
  store w = Online rows next ->
  (forall e u w0, fst (done e u w0) = Ok tt) ->
  match find (knex.by_username username) rows with
  | None =>
      verify (AVal (JStr username)) (AVal (JStr pw)) (AFun done) w
      = done None (contract.reported contract.NoSuchUser)
          (emit (Select "username" username) w)
  | Some r =>
      In r rows /\ users.username r = username /\
      forall b, compare_result pw (users.password r) = Ok b ->
        verify (AVal (JStr username)) (AVal (JStr pw)) (AFun done) w
        = done None
            (contract.reported
               (if b then contract.Authenticated r else contract.BadPassword))
            (emit (Compared pw (users.password r))
               (emit (Select "username" username) w))
  end.
Proof.
  intros Hst Hdone.
  pose proof (returns_normally done Hdone) as Hret.
  destruct (find (knex.by_username username) rows) as [r|] eqn:Hf.
  - destruct (find_by_username_sound _ _ _ Hf) as [Hin Hname].
    split; [exact Hin | split; [exact Hname |]].
    intros b Hb.
    unfold verify, detach, catch_, then_, knex.where_username_first, promise,
      bind, get, modify, ret, call.
    rewrite Hst. cbn [knex.binding_of]. rewrite Hf, comparePass_result, Hb.
    destruct b; cbn [negb contract.reported]; rewrite Hret; reflexivity.
  - unfold verify, detach, catch_, then_, knex.where_username_first, promise,
      bind, get, modify, ret, call.
    rewrite Hst. cbn [knex.binding_of contract.reported]. rewrite Hf, Hret. reflexivity.
Qed.

(** C7.  A register or login request that arrives with a user resolved
    from the session is answered 401 "You are already logged in" by
    [loginRedirect]; the handler behind it is not reached (the trace gains
    the response and nothing else), and the store, [req.user] and the
    session entry are those of the incoming request. *)
Theorem loginRedirect_short_circuits (o : LocalStrategy.options) (w : world)
    (u : users.row) :
  user w = Some u ->
  sent w = None ->
  forall w', w' = run post_register w \/ w' = run (post_login o) w ->
    observe w' = Response 401 "You are already logged in" /\
    trace w' = (trace w ++ [Sent 401 "You are already logged in"])%list /\
    store w' = store w /\ user w' = user w /\ session w' = session w.
Proof.
  intros Hu Hs w' Hw'. expose w. subst us se.
  destruct Hw' as [-> | ->]; cbn; repeat split; reflexivity.
Qed.

(** C5.  The response of [GET /admin] on a fresh response object: an
    anonymous caller gets 401 "Please log in"; for a caller with
    [req.user], the row stored under that username decides: 200 "success"
    when its [admin] flag is set, 401 "You are not authorized" when it is
    not (and 500 when the row cannot be fetched). *)
Theorem get_admin_response (w : world) :
  sent w = None ->
  observe (run get_admin w) =
    match user w with
    | None => Response 401 "Please log in"
    | Some u =>
        match store w with
        | Online rows _ =>
            match find (knex.by_username (users.username u)) rows with
            | Some r =>
                if users.admin r then Response 200 "success"
                else Response 401 "You are not authorized"
            | None => Response 500 "Something bad happened"
            end
        | Offline _ => Response 500 "Something bad happened"
        end
    end.
Proof.
  intros Hs. expose w. subst se.
  destruct us as [u|].
  - destruct st as [rows n|reason]; [| reflexivity].
    unfold run, get_admin. exec.
    destruct (find _ rows) as [r|]; [| reflexivity].
    destruct (users.admin r); [reflexivity |].
    destruct fl; reflexivity.
  - cbn. destruct fl; reflexivity.
Qed.

(** C3, on the non-administrator branch.  An authenticated caller whose stored row is
    not an administrator: [adminRequired] answers 401 and still calls
    [next()], so the handler of [GET /admin] is reached after the response
    was written; its own response is refused by express. *)
Theorem adminRequired_reaches_handler (w : world) (u r : users.row)
    (rows : list users.row) (n : Z) :
  sent w = None ->
  user w = Some u ->
  store w = Online rows n ->
  find (knex.by_username (users.username u)) rows = Some r ->
  users.admin r = false ->
  trace (run get_admin w) =
    (trace w ++ [Select "username" (users.username u);
                 Sent 401 "You are not authorized";
                 Reached "GET /admin";
                 NextErr HeadersSent])%list.
Proof.
  intros Hs Hu Hst Hf Hadm. expose w. subst se us st.
  unfold run, get_admin. exec. rewrite Hf, Hadm.
  destruct fl; cbn [trace]; rewrite <- !app_assoc; reflexivity.
Qed.

(** The anonymous branch of [adminRequired]: the 401 is sent, then the read
    of [req.user.username] throws; the handler of the route is not reached
    and the error goes to express. *)
Lemma adminRequired_anonymous (w : world) :
  user w = None ->
  sent w = None ->
  trace (run get_admin w)
  = (trace w ++ [Sent 401 "Please log in";
                 NextErr (TypeError "Cannot read property 'username' of undefined")])%list.
Proof.
  intros Hu Hs. expose w. subst us se.
  unfold run, get_admin. exec.
  destruct fl; cbn [trace]; rewrite <- app_assoc; reflexivity.
Qed.


(** The login route of [local.js] as it is configured: with no [email]
    credential in the body or the query string the strategy fails before
    the verify callback, and the route answers 404 without a query. *)
Lemma post_login_missing_email (w : world) :
  user w = None ->
  sent w = None ->
  body w !! "email" = None ->
  query w !! "email" = None ->
  run (post_login options) w
  = emit (Sent 404 "User not found")
      (with_sent (Some (404, "User not found"))
         (with_statusCode 404 (emit (Reached "POST /auth/login") w))).
Proof.
  intros Hu Hs Hb Hq. expose w. subst us se.
  unfold run, post_login. exec. rewrite Hb, Hq. reflexivity.
Qed.

(** C10, for a request without an [email] anywhere.  With
    [usernameField: 'email'], an anonymous login
    request whose body and query string carry no [email] field is answered
    404 "User not found" whatever its [username] and [password] fields and
    whatever the store holds; the table is not consulted. *)
Theorem login_without_email_not_found (w : world) :
  user w = None ->
  sent w = None ->
  body w !! "email" = None ->
  query w !! "email" = None ->
  observe (run (post_login options) w) = Response 404 "User not found" /\
  trace (run (post_login options) w)
  = (trace w ++ [Reached "POST /auth/login"; Sent 404 "User not found"])%list /\
  store (run (post_login options) w) = store w.
Proof.
  intros Hu Hs Hb Hq. rewrite (post_login_missing_email w Hu Hs Hb Hq).
  expose w. cbn. rewrite <- app_assoc. repeat split; reflexivity.
Qed.

(** The same route for a request in which the strategy does find an
    [email] and a [password]: the verify callback is called with the request
    in front, its [done] is the password, and every path of the callback
    ends in calling it; the route never answers. *)
Lemma post_login_shifted_arguments (w : world) :
  user w = None ->
  sent w = None ->
  failure w = None ->
  truthy (LocalStrategy.or_js (LocalStrategy.lookup (body w) "email")
            (LocalStrategy.lookup (query w) "email")) = true ->
  truthy (LocalStrategy.or_js (LocalStrategy.lookup (body w) "password")
            (LocalStrategy.lookup (query w) "password")) = true ->
  observe (run (post_login options) w) = Pending /\
  trace (run (post_login options) w)
  = (trace w ++ [Reached "POST /auth/login";
                 Unhandled (TypeError "done is not a function")])%list.
Proof.
  intros Hu Hs Hf He Hp. expose w. subst us se fl.
  unfold run, post_login.
  cbv -[truthy LocalStrategy.or_js LocalStrategy.lookup app].
  rewrite He, Hp.
  destruct st as [rows n|reason]; cbn; rewrite <- app_assoc; split; reflexivity.
Qed.

(** C1, as the code has it.  The strategy of [local.js] is built with
    [usernameField: 'email'] and [passReqToCallback: true] around a verify
    callback that names three parameters.  For every anonymous login
    request on a fresh response object there are two cases.  When the
    strategy finds no [email] or no [password], it fails without calling
    the verifier and the route answers 404.  Otherwise it calls the verifier
    with the request in front: the lookup is keyed by the request object and
    does not reach the table, no password is compared, and [done], which is
    the submitted password, cannot be called, so the request is not
    answered.  In neither case is a record looked up by the submitted
    username or a user reported as authenticated, also when the request
    carries the name and the password of a stored record. *)
Theorem login_attempt_never_verified (w : world) :
  user w = None ->
  sent w = None ->
  run (post_login options) w
  = if truthy (LocalStrategy.or_js (LocalStrategy.lookup (body w) "email")
                 (LocalStrategy.lookup (query w) "email"))
       && truthy (LocalStrategy.or_js (LocalStrategy.lookup (body w) "password")
                    (LocalStrategy.lookup (query w) "password"))
    then emit (Unhandled (TypeError "done is not a function"))
           (emit (Reached "POST /auth/login") w)
    else emit (Sent 404 "User not found")
           (with_sent (Some (404, "User not found"))
              (with_statusCode 404 (emit (Reached "POST /auth/login") w))).
Proof.
  intros Hu Hs. expose w. subst us se.
  unfold run, post_login.
  cbv -[truthy LocalStrategy.or_js LocalStrategy.lookup app].
  destruct (truthy (LocalStrategy.or_js (LocalStrategy.lookup bd "email")
                      (LocalStrategy.lookup qr "email"))); [| reflexivity].
  destruct (truthy (LocalStrategy.or_js (LocalStrategy.lookup bd "password")
                      (LocalStrategy.lookup qr "password"))); [| reflexivity].
  destruct st as [rows n|reason]; reflexivity.
Qed.




(** [createUser] on a fresh response object either inserts one row, made
    of the [username] field, the hash of the [password] field and the
    defaults of the table, or answers 400. *)
Lemma createUser_outcome (w : world) :
  sent w = None ->
  (exists (v : jsval) (name p h : string) (rows : list users.row) (n : Z),
      body w !! "username" = Some v /\
      knex.binding_of (AVal v) = knex.Text name /\
      body w !! "password" = Some (JStr p) /\
      _hash p (entropy w (draws w)) = Ok h /\
      store w = Online rows n /\
      createUser w
      = (Ok (Fulfilled (Some [users.defaults n name h])),
         emit (Inserted (users.defaults n name h))
           (with_store (Online (rows ++ [users.defaults n name h]) (n + 1))
              (with_draws (S (draws w)) w)))) \/
  (exists (msg : string) (w' : world),
      createUser w = (Ok (Fulfilled None), w') /\
      sent w' = Some (400, msg) /\ user w' = user w).
Proof.
  intros Hs. expose w. subst se.
  destruct (bd !! "username") as [v|] eqn:Hbu; [| refused].
  assert (Hv : (exists name, knex.binding_of (AVal v) = knex.Text name /\
                  match v with
                  | JStr s => Nat.ltb (String.length s) 6 = false
                  | _ => True
                  end) \/
               v = JNull \/
               (exists s, v = JStr s /\ Nat.ltb (String.length s) 6 = true)).
  { destruct v as [|b|z|s]; [right; left; reflexivity | left | left |].
    - eexists; split; [reflexivity | exact I].
    - eexists; split; [reflexivity | exact I].
    - destruct (Nat.ltb (String.length s) 6) eqn:E.
      + right; right. exists s. split; first [exact E | reflexivity].
      + left. eexists; split; first [exact E | reflexivity]. }
  destruct Hv as [(name & Hname & Hlen) | [-> | (s & -> & Hlen)]];
    [| refused | refused].
  destruct (bd !! "password") as [q|] eqn:Hbp;
    [| destruct v; try discriminate Hname; refused].
  destruct q as [|b'|z'|p];
    [destruct v; try discriminate Hname; refused ..|].
  destruct (Nat.ltb (String.length p) 6) eqn:Hp;
    [destruct v; try discriminate Hname; refused |].
  destruct (_hash p (en dr)) as [h|e] eqn:Hh;
    [| destruct v; try discriminate Hname; refused].
  destruct st as [rows n|reason];
    [| destruct v; try discriminate Hname; refused].
  destruct (Nat.ltb 255 (String.length name)) eqn:Hlong;
    [destruct v; try discriminate Hname; injection Hname as <-; refused |].
  destruct (existsb (knex.by_username name) rows) eqn:Hdup;
    [destruct v; try discriminate Hname; injection Hname as <-; refused |].
  left. exists v, name, p, h, rows, n.
  repeat split; try assumption.
  destruct v; try discriminate Hname; injection Hname as <-;
    unfold createUser; steps; reflexivity.
Qed.

(** C6.  A registration that is answered 200 "success" has added exactly
    one row: its username is the [username] field of the body, its
    password is what [bcrypt.hashSync] returned for the [password] field
    under the salt drawn for this request, not the field itself, and its
    [admin] flag is the default [false] of the table; no other field of
    the body is read. *)
Theorem registration_stores_hash (w : world) :
  sent w = None ->
  observe (run post_register w) = Response 200 "success" ->
  exists (v : jsval) (name p h : string) (rows : list users.row) (n : Z),
    body w !! "username" = Some v /\
    knex.binding_of (AVal v) = knex.Text name /\
    body w !! "password" = Some (JStr p) /\
    _hash p (entropy w (draws w)) = Ok h /\
    store w = Online rows n /\
    store (run post_register w)
    = Online (rows ++ [{| users.id := n;
                          users.username := name;
                          users.password := h;
                          users.admin := false;
                          users.created_at := None;
                          users.updated_at := None |}])%list (n + 1).
Proof.
  intros Hs Hobs.
  destruct (user w) as [u|] eqn:Hu.
  { exfalso. expose w. subst se us. revert Hobs. exec. discriminate. }
  set (w1 := emit (Reached "POST /auth/register") w).
  assert (Hs1 : sent w1 = None) by (subst w1; now destruct w).
  destruct (createUser_outcome w1 Hs1) as
    [(v & name & p & h & rows & n & Hbu & Hname & Hbp & Hh & Hst & Hc)
    |(msg & w' & Hc & Hsent & _)].
  - exists v, name, p, h, rows, n.
    subst w1. expose w. unfold emit in Hbu, Hbp, Hh, Hst.
    cbn [store body entropy draws] in Hbu, Hbp, Hh, Hst. subst se us st.
    repeat split; try assumption.
    unfold run, post_register. keep_createUser_in Hc. keep_createUser.
    rewrite Hc. reflexivity.
  - exfalso. revert Hobs. subst w1. expose w. subst se us.
    destruct w' as [st' bd' qr' us' ss' sc' se' fl' en' dr' tr'].
    cbn in Hsent. subst se'.
    unfold run, post_register. keep_createUser_in Hc. keep_createUser.
    rewrite Hc. discriminate.
Qed.

(** C8, the half that fails by design.  A request that carries a session
    entry while the database rejects queries does not continue as an
    anonymous request.  The deserialiser of [passport.js] catches the
    rejection and calls [done(err, null)]; once it is registered,
    [passport.session()] hands that error of the store to express.  As the
    program stands the deserialiser is not registered and the error is
    passport's own.  Either way no guard and no handler of the route runs,
    no response is written by the route, and [req.user] and the session
    entry stay as they were. *)
Theorem deserialization_failure_is_an_error (reg : passport.registry) (w : world)
    (su : Z) (reason : string) (stack : list express.middleware) :
  reg = authenticator \/ reg = passport_js.init authenticator ->
  session w = Some su ->
  sent w = None ->
  failure w = None ->
  store w = Offline reason ->
  let e := match passport._deserializers reg with
           | [] => PassportError "Failed to deserialize user out of session"
           | _ :: _ => StoreError reason
           end in
  observe (run (express.route (passport.session reg :: stack)) w) = Failed e /\
  trace (run (express.route (passport.session reg :: stack)) w)
  = (trace w ++ [NextErr e])%list /\
  user (run (express.route (passport.session reg :: stack)) w) = user w /\
  session (run (express.route (passport.session reg :: stack)) w) = session w.
Proof.
  intros Hreg Hss Hs Hf Hst. expose w. subst ss se fl st.
  destruct Hreg as [-> | ->]; cbn; repeat split; reflexivity.
Qed.

End properties.

(** * The properties on the sample requests *)

Lemma verify_follows_contract_witness :
  @verify sample.hasher (AVal (JStr "jeremy")) (AVal (JStr "johnson123"))
    (AFun (fun _ _ => ret tt)) examples.login_jeremy
  = (Ok tt,
     emit (Compared "johnson123" (users.password sample.jeremy))
       (emit (Select "username" "jeremy") examples.login_jeremy)).
Proof.
  exact (proj2 (proj2 (@verify_follows_contract sample.hasher examples.login_jeremy
                         [sample.jeremy; sample.kelly] 3 "jeremy" "johnson123"
                         (fun _ _ => ret tt) eq_refl (fun _ _ _ => eq_refl)))
           true eq_refl).
Defined.

Lemma loginRedirect_short_circuits_witness :
  observe (run (@post_register sample.hasher) examples.as_jeremy)
  = Response 401 "You are already logged in" /\
  trace (run (@post_register sample.hasher) examples.as_jeremy)
  = [Sent 401 "You are already logged in"] /\
  store (run (@post_register sample.hasher) examples.as_jeremy) = sample.seeded /\
  user (run (@post_register sample.hasher) examples.as_jeremy) = Some sample.jeremy /\
  session (run (@post_register sample.hasher) examples.as_jeremy) = Some 1%Z.
Proof.
  exact (@loginRedirect_short_circuits sample.hasher options examples.as_jeremy
           sample.jeremy eq_refl eq_refl _ (or_introl eq_refl)).
Defined.

Lemma get_admin_response_witness :
  observe (run get_admin examples.as_kelly) = Response 200 "success".
Proof.
  exact (get_admin_response examples.as_kelly eq_refl).
Defined.

Lemma adminRequired_reaches_handler_witness :
  trace (run get_admin examples.as_jeremy)
  = [Select "username" "jeremy";
     Sent 401 "You are not authorized";
     Reached "GET /admin";
     NextErr HeadersSent].
Proof.
  exact (adminRequired_reaches_handler examples.as_jeremy sample.jeremy sample.jeremy
           [sample.jeremy; sample.kelly] 3 eq_refl eq_refl eq_refl eq_refl eq_refl).
Defined.


Lemma login_without_email_not_found_witness :
  observe (run (@post_login sample.hasher options) examples.login_jeremy)
  = Response 404 "User not found" /\
  trace (run (@post_login sample.hasher options) examples.login_jeremy)
  = [Reached "POST /auth/login"; Sent 404 "User not found"] /\
  store (run (@post_login sample.hasher options) examples.login_jeremy)
  = sample.seeded.
Proof.
  exact (@login_without_email_not_found sample.hasher examples.login_jeremy
           eq_refl eq_refl eq_refl eq_refl).
Defined.


Lemma registration_stores_hash_witness :
  exists (v : jsval) (name p h : string) (rows : list users.row) (n : Z),
    body examples.register_michael !! "username" = Some v /\
    knex.binding_of (AVal v) = knex.Text name /\
    body examples.register_michael !! "password" = Some (JStr p) /\
    @_hash sample.hasher p sample.salt = Ok h /\
    sample.seeded = Online rows n /\
    store (run (@post_register sample.hasher) examples.register_michael)
    = Online (rows ++ [{| users.id := n;
                          users.username := name;
                          users.password := h;
                          users.admin := false;
                          users.created_at := None;
                          users.updated_at := None |}])%list (n + 1).
Proof.
  exact (@registration_stores_hash sample.hasher examples.register_michael
           eq_refl eq_refl).
Defined.

Lemma deserialization_failure_is_an_error_witness :
  (observe (run (with_session_middleware [loginRequired; user_handler])
              examples.offline_session)
   = Failed (PassportError "Failed to deserialize user out of session") /\
   trace (run (with_session_middleware [loginRequired; user_handler])
            examples.offline_session)
   = [NextErr (PassportError "Failed to deserialize user out of session")] /\
   user (run (with_session_middleware [loginRequired; user_handler])
           examples.offline_session) = None /\
   session (run (with_session_middleware [loginRequired; user_handler])
              examples.offline_session) = Some 1%Z) /\
  observe (run (express.route (passport.session (passport_js.init authenticator)
                                 :: [loginRequired; user_handler]))
             examples.offline_session)
  = Failed (StoreError "connection refused").
Proof.
  split.
  - exact (deserialization_failure_is_an_error authenticator examples.offline_session 1
             "connection refused" [loginRequired; user_handler]
             (or_introl eq_refl) eq_refl eq_refl eq_refl eq_refl).
  - exact (proj1 (deserialization_failure_is_an_error (passport_js.init authenticator)
                    examples.offline_session 1 "connection refused"
                    [loginRequired; user_handler]
                    (or_intror eq_refl) eq_refl eq_refl eq_refl eq_refl)).
Defined.

Lemma login_attempt_never_verified_witness :
  run (@post_login sample.hasher options) examples.login_jeremy
  = emit (Sent 404 "User not found")
      (with_sent (Some (404, "User not found"))
         (with_statusCode 404 (emit (Reached "POST /auth/login") examples.login_jeremy))) /\
  run (@post_login sample.hasher options) more_examples.login_with_email
  = emit (Unhandled (TypeError "done is not a function"))
      (emit (Reached "POST /auth/login") more_examples.login_with_email).
Proof.
  split.
  - exact (@login_attempt_never_verified sample.hasher examples.login_jeremy
             eq_refl eq_refl).
  - exact (@login_attempt_never_verified sample.hasher more_examples.login_with_email
             eq_refl eq_refl).
Defined.

(** * Where the stated behaviour fails *)



(** C8.  A request to [GET /user] with a session entry while the database
    rejects queries is not answered as an anonymous one (401 "Please log
    in", as the same request without a session entry is): it ends in
    express's error handling and [loginRequired] never runs, as the program
    stands and also once the deserialiser is registered. *)
Lemma deserialization_failure_not_anonymous :
  session examples.offline_session = Some 1%Z /\
  store examples.offline_session = Offline "connection refused" /\
  run (with_session_middleware [loginRequired; user_handler]) examples.offline_session
  = emit (NextErr (PassportError "Failed to deserialize user out of session"))
      (with_failure (Some (PassportError "Failed to deserialize user out of session"))
         examples.offline_session) /\
  run (express.route (passport.session (passport_js.init authenticator)
                        :: [loginRequired; user_handler]))
    examples.offline_session
  = emit (NextErr (StoreError "connection refused"))
      (with_failure (Some (StoreError "connection refused")) examples.offline_session) /\
  observe (run (with_session_middleware [loginRequired; user_handler])
             (with_session None examples.offline_session))
  = Response 401 "Please log in".
Proof.
  repeat split; reflexivity.
Qed.

(** C10.  An anonymous login request whose JSON body has the [username]
    and [password] of a stored user and no [email] field, sent to
    [/auth/login?email=jeremy]: the strategy finds its credentials, calls
    the verify callback with the request in front, and the callback's
    [done] is the password string; the answer is not 404. *)
Lemma login_with_query_email_not_404 :
  user examples.login_with_query_email = None /\
  body examples.login_with_query_email !! "username" = Some (JStr "jeremy") /\
  body examples.login_with_query_email !! "password" = Some (JStr "johnson123") /\
  body examples.login_with_query_email !! "email" = None /\
  observe (run (@post_login sample.hasher options) examples.login_with_query_email)
  <> Response 404 "User not found".
Proof.
  repeat split; try reflexivity. vm_compute. discriminate.
Qed.

(** * Invariants of the routes *)

Section invariants.
Context `{Bcrypt}.
Variable P : world -> Prop.
Hypothesis P_emit : forall e w, P w -> P (emit e w).
Hypothesis P_statusCode : forall c w, P w -> P (with_statusCode c w).
Hypothesis P_failure : forall e w, P w -> P (with_failure e w).
Hypothesis P_draws : forall n w, P w -> P (with_draws n w).
Hypothesis P_send : forall r w, P w -> sent w = None -> P (with_sent (Some r) w).

Lemma preserves_ret {A} (a : A) : preserves P (ret a).
Proof. intros w Hw. exact Hw. Qed.

Lemma preserves_throw {A} (e : error) : preserves P (@throw A e).
Proof. intros w Hw. exact Hw. Qed.

Lemma preserves_get : preserves P get.
Proof. intros w Hw. exact Hw. Qed.

Lemma preserves_lift {A} (r : result A) : preserves P (lift r).
Proof. intros w Hw. exact Hw. Qed.

Lemma preserves_modify (g : world -> world) :
  (forall w, P w -> P (g w)) -> preserves P (modify g).
Proof. intros Hg w Hw. apply Hg, Hw. Qed.

Lemma preserves_bind {A B} (m : M A) (k : A -> M B) :
  preserves P m -> (forall a, preserves P (k a)) -> preserves P (bind m k).
Proof.
  intros Hm Hk w Hw. unfold bind. specialize (Hm w Hw).
  destruct (m w) as [[a|e] w']; cbn [snd] in *; [apply Hk, Hm | exact Hm].
Qed.

(** [try { m } catch (e) { h(e) }] *)
Lemma preserves_try {A} (m : M A) (h : error -> M A) :
  preserves P m -> (forall e, preserves P (h e)) ->
  preserves P (fun w => match m w with
                        | (Throw e, w') => h e w'
                        | r => r
                        end).
Proof.
  intros Hm Hh w Hw. specialize (Hm w Hw).
  destruct (m w) as [[a|e] w']; cbn [snd] in *; [exact Hm | apply Hh, Hm].
Qed.

Lemma preserves_promise {A} (m : M A) : preserves P m -> preserves P (promise m).
Proof.
  intros Hm w Hw. unfold promise. specialize (Hm w Hw).
  destruct (m w) as [[a|e] w']; exact Hm.
Qed.

Lemma preserves_then {A B} (p : M (settled A)) (f : A -> M B) :
  preserves P p -> (forall a, preserves P (f a)) -> preserves P (then_ p f).
Proof.
  intros Hp Hf. apply preserves_bind; [exact Hp |].
  intros [a|e]; [apply preserves_promise, Hf | apply preserves_ret].
Qed.

Lemma preserves_then_promise {A B} (p : M (settled A)) (f : A -> M (settled B)) :
  preserves P p -> (forall a, preserves P (f a)) -> preserves P (then_promise p f).
Proof.
  intros Hp Hf. apply preserves_bind; [exact Hp |].
  intros [a|e]; [| apply preserves_ret].
  apply preserves_bind; [apply preserves_promise, Hf |].
  intros [s|e]; apply preserves_ret.
Qed.

Lemma preserves_catch {A} (p : M (settled A)) (f : error -> M A) :
  preserves P p -> (forall e, preserves P (f e)) -> preserves P (catch_ p f).
Proof.
  intros Hp Hf. apply preserves_bind; [exact Hp |].
  intros [a|e]; [apply preserves_ret | apply preserves_promise, Hf].
Qed.

Lemma preserves_detach {A} (p : M (settled A)) :
  preserves P p -> preserves P (detach p).
Proof.
  intros Hp. apply preserves_bind; [exact Hp |].
  intros [a|e]; [apply preserves_ret | apply preserves_modify; intros; now apply P_emit].
Qed.

Lemma preserves_status (c : nat) : preserves P (res.status c).
Proof. apply preserves_modify. intros. now apply P_statusCode. Qed.

Lemma preserves_json (msg : string) : preserves P (res.json msg).
Proof.
  intros w Hw. unfold res.json, bind, get, modify, throw.
  destruct (sent w) eqn:Hs; cbn [snd]; [exact Hw |].
  apply P_emit, P_send; [exact Hw | exact Hs].
Qed.

Lemma preserves_next_err (e : error) : preserves P (express.next_err e).
Proof.
  apply preserves_modify. intros w Hw. apply P_emit.
  destruct (failure w); [exact Hw | now apply P_failure].
Qed.

Lemma preserves_layer (fn : M unit) : preserves P fn -> preserves P (express.layer fn).
Proof.
  intros Hfn. unfold express.layer.
  apply (preserves_try fn express.next_err Hfn preserves_next_err).
Qed.

(** A route keeps what each of its handlers keeps. *)
Lemma preserves_route (stack : list express.middleware) :
  Forall (fun fn => forall next, preserves P next -> preserves P (fn next)) stack ->
  preserves P (express.route stack).
Proof.
  induction 1 as [|fn rest Hfn _ IH]; [apply preserves_ret |].
  cbn [express.route]. apply preserves_layer, Hfn, IH.
Qed.

(** The further conditions some handlers need: an insert, a change of
    [req.user] and a change of the session entry keep [P]. *)
Hypothesis P_insert : forall v hash, preserves P (knex.insert_returning v hash).
Hypothesis P_user : forall u w, P w -> P (with_user u w).
Hypothesis P_session : forall s w, P w -> P (with_session s w).

Ltac frame_step :=
  lazymatch goal with
  | |- preserves _ (match ?x with _ => _ end) => destruct x
  | |- preserves _ (if ?b then _ else _) => destruct b
  | |- preserves _ (ret _) => apply preserves_ret
  | |- preserves _ (throw _) => apply preserves_throw
  | |- preserves _ get => apply preserves_get
  | |- preserves _ (lift _) => apply preserves_lift
  | |- preserves _ (res.status _) => apply preserves_status
  | |- preserves _ (res.json _) => apply preserves_json
  | |- preserves _ (express.next_err _) => apply preserves_next_err
  | |- preserves _ (express.layer _) => apply preserves_layer
  | |- preserves _ (detach _) => apply preserves_detach
  | |- preserves _ (promise _) => apply preserves_promise
  | |- preserves _ (catch_ _ _) => apply preserves_catch; [| intros ?]
  | |- preserves _ (then_promise _ _) => apply preserves_then_promise; [| intros ?]
  | |- preserves _ (then_ _ _) => apply preserves_then; [| intros ?]
  | |- preserves _ (bind _ _) => apply preserves_bind; [| intros ?]
  | |- preserves _ (modify _) =>
      apply preserves_modify; intros ? ?;
      auto using P_emit, P_statusCode, P_failure, P_draws, P_user, P_session
  | |- preserves _ _ => assumption
  end.

Ltac frame := repeat frame_step.

Lemma preserves_where_username (v : arg) : preserves P (knex.where_username_first v).
Proof. unfold knex.where_username_first. frame. Qed.

Lemma preserves_where_id (i : Z) : preserves P (knex.where_id_first i).
Proof. unfold knex.where_id_first. frame. Qed.

Lemma preserves_genSaltSync : preserves P bcrypt.genSaltSync.
Proof. unfold bcrypt.genSaltSync. frame. Qed.

Lemma preserves_hashSync (s : arg) (salt : string) : preserves P (bcrypt.hashSync s salt).
Proof. unfold bcrypt.hashSync. frame. Qed.

Lemma preserves_comparePass (s : arg) (hash : string) : preserves P (comparePass s hash).
Proof.
  unfold comparePass, bcrypt.compareSync. frame; apply preserves_hashSync.
Qed.

(** What a callable argument must keep for its caller to keep it. *)
Definition callable_keeps (f : arg) : Prop :=
  match f with
  | AFun k => forall e u, preserves P (k e u)
  | _ => True
  end.

Lemma preserves_call (f : arg) (e : option error) (u : uval) :
  callable_keeps f -> preserves P (call f e u).
Proof. destruct f; cbn; intros Hf; frame. apply Hf. Qed.

Lemma preserves_verify (username password done : arg) :
  callable_keeps done -> preserves P (verify username password done).
Proof.
  intros Hd. unfold verify. frame;
    first [apply preserves_where_username | apply preserves_comparePass
          | now apply preserves_call].
Qed.

Lemma preserves_handleResponse (code : nat) (msg : string) :
  preserves P (handleResponse code msg).
Proof. unfold handleResponse. frame. Qed.

Lemma preserves_loginRequired (next : M unit) :
  preserves P next -> preserves P (loginRequired next).
Proof. intros Hn. unfold loginRequired. frame. Qed.

Lemma preserves_loginRedirect (next : M unit) :
  preserves P next -> preserves P (loginRedirect next).
Proof. intros Hn. unfold loginRedirect. frame. Qed.

Lemma preserves_adminRequired (next : M unit) :
  preserves P next -> preserves P (adminRequired next).
Proof.
  intros Hn. unfold adminRequired. frame; apply preserves_where_username.
Qed.

Lemma preserves_handleErrors : preserves P handleErrors.
Proof. unfold handleErrors. frame. Qed.

Lemma preserves_createUser : preserves P createUser.
Proof.
  unfold createUser. frame;
    first [apply preserves_handleErrors | apply preserves_genSaltSync
          | apply preserves_hashSync | apply P_insert].
Qed.

(** The chain of serialisers keeps what each serialiser and [done] keep. *)
Lemma preserves_serializeUser (stack : list passport.serializer)
    (u : option users.row) (done : option error -> option Z -> M unit) :
  Forall (fun layer : passport.serializer =>
            forall u' cb, (forall e o, preserves P (cb e o)) -> preserves P (layer u' cb))
         stack ->
  (forall e o, preserves P (done e o)) ->
  preserves P (passport.serializeUser stack u done).
Proof.
  intros Hstack Hd. induction Hstack as [|layer rest Hl _ IH]; cbn; [apply Hd |].
  apply preserves_try; [| intros e; apply Hd].
  apply Hl. intros [e|] [o|]; first [apply Hd | exact IH].
Qed.

Lemma preserves_logIn (u : option users.row) (done : option error -> M unit) :
  (forall e, preserves P (done e)) -> preserves P (passport.logIn authenticator u done).
Proof.
  intros Hd. unfold passport.logIn.
  apply preserves_bind; [frame | intros _].
  apply preserves_serializeUser; [constructor |].
  intros [e|] o; frame; apply Hd.
Qed.

Lemma preserves_handleLogin (target : http_object) (u : option users.row) :
  preserves P (handleLogin target u).
Proof.
  unfold handleLogin. apply preserves_promise.
  destruct target; frame. apply preserves_logIn. intros [e|]; frame.
Qed.

(** Called on [res], [handleLogin] only throws. *)
Lemma preserves_handleLogin_res (u : option users.row) :
  preserves P (handleLogin the_res u).
Proof. unfold handleLogin. frame. Qed.

Lemma preserves_register (next : M unit) : preserves P (register next).
Proof.
  unfold register. frame;
    first [apply preserves_createUser | apply preserves_handleLogin_res
          | apply preserves_handleResponse].
Qed.

Lemma preserves_strategy (o : LocalStrategy.options) (act : passport.actions) :
  (forall r, preserves P (passport.success act r)) ->
  preserves P (passport.fail act) ->
  (forall e, preserves P (passport.error act e)) ->
  preserves P (LocalStrategy.authenticate o verify act).
Proof.
  intros Hs Hf He. unfold LocalStrategy.authenticate.
  apply preserves_bind; [apply preserves_get | intros w; cbv zeta].
  match goal with |- preserves _ (if ?b then _ else _) => destruct b end;
    [exact Hf |].
  apply preserves_try; [| exact He].
  destruct (LocalStrategy.passReqToCallback o); apply preserves_verify; cbn; [exact I |].
  intros [e|] u; [apply He |]. destruct u; auto.
Qed.

Lemma preserves_login (o : LocalStrategy.options) (next : M unit) :
  preserves P (login o next).
Proof.
  unfold login, passport.authenticate.
  apply preserves_bind; [frame | intros _].
  apply preserves_strategy; cbn [passport.success passport.fail passport.error];
    intros; frame; apply preserves_handleResponse.
Qed.

Lemma preserves_logout (next : M unit) : preserves P (logout next).
Proof.
  unfold logout, passport.logout. frame; apply preserves_handleResponse.
Qed.

Lemma preserves_user_handler (next : M unit) : preserves P (user_handler next).
Proof. unfold user_handler. frame; apply preserves_handleResponse. Qed.

Lemma preserves_admin_handler (next : M unit) : preserves P (admin_handler next).
Proof. unfold admin_handler. frame; apply preserves_handleResponse. Qed.

(** The chain of deserialisers keeps what each deserialiser and [done]
    keep. *)
Lemma preserves_deserializeUser (stack : list passport.deserializer) (su : Z)
    (done : callback) :
  Forall (fun layer : passport.deserializer =>
            forall i cb, (forall e u, preserves P (cb e u)) -> preserves P (layer i cb))
         stack ->
  (forall e u, preserves P (done e u)) ->
  preserves P (passport.deserializeUser stack su done).
Proof.
  intros Hstack Hd. induction Hstack as [|layer rest Hl _ IH]; cbn; [apply Hd |].
  apply preserves_try; [| intros e; apply Hd].
  apply Hl. intros [e|] [| | |r]; first [apply Hd | exact IH].
Qed.

Lemma preserves_session_middleware (next : M unit) :
  preserves P next -> preserves P (passport.session authenticator next).
Proof.
  intros Hn. unfold passport.session.
  apply preserves_bind; [apply preserves_get | intros w].
  destruct (session w) as [su|]; [| exact Hn].
  apply preserves_deserializeUser; [constructor |].
  intros [e|] u; frame.
Qed.

End invariants.

Section frames.
Context `{Bcrypt}.

(** An insert leaves the world as it is, or uses up one [id] of the
    sequence without adding a row, or appends one row with a username the
    table did not have, under the next [id]. *)
Lemma insert_returning_world (v : arg) (hash : string) (w : world) :
  snd (knex.insert_returning v hash w) = w \/
  (exists rows n,
      store w = Online rows n /\
      snd (knex.insert_returning v hash w) = with_store (Online rows (n + 1)) w) \/
  exists rows n s,
    store w = Online rows n /\
    existsb (knex.by_username s) rows = false /\
    snd (knex.insert_returning v hash w)
    = emit (Inserted (users.defaults n s hash))
        (with_store (Online (rows ++ [users.defaults n s hash]) (n + 1)) w).
Proof.
  unfold knex.insert_returning, knex.refuse, bind, get, ret, modify.
  destruct (store w) as [rows n|reason] eqn:Hst; [| left; reflexivity].
  destruct (knex.inserted_binding_of v) as [s| |];
    [| right; left; exists rows, n; split; reflexivity | left; reflexivity].
  destruct (Nat.ltb 255 (String.length s)); [left; reflexivity |].
  destruct (existsb (knex.by_username s) rows) eqn:Hdup;
    [right; left; exists rows, n; split; reflexivity |].
  right; right. exists rows, n, s. repeat split; first [exact Hdup | reflexivity].
Qed.

(** A property of the world that does not depend on the table or the
    trace is kept by an insert. *)
Lemma insert_keeps (P : world -> Prop) :
  (forall e w, P w -> P (emit e w)) ->
  (forall d w, P w -> P (with_store d w)) ->
  forall v hash, preserves P (knex.insert_returning v hash).
Proof.
  intros He Hd v hash w Hw.
  destruct (insert_returning_world v hash w)
    as [-> | [(rows & n & _ & ->) | (rows & n & s & _ & _ & ->)]];
    [exact Hw | apply Hd, Hw | apply He, Hd, Hw].
Qed.



Lemma insert_keeps_rows (rows0 : list users.row) (v : arg) (hash : string) :
  preserves (fun w => keeps_rows rows0 (store w)) (knex.insert_returning v hash).
Proof.
  intros w Hw.
  destruct (insert_returning_world v hash w)
    as [-> | [(rows & n & Hst & ->) | (rows & n & s & Hst & _ & ->)]];
    [exact Hw | |].
  - rewrite Hst in Hw. exact Hw.
  - rewrite Hst in Hw. destruct Hw as (extra & ->).
    cbn [emit with_store store keeps_rows].
    exists (extra ++ [users.defaults n s hash])%list. now rewrite app_assoc.
Qed.

End frames.

Section all_routes.
Context `{Bcrypt}.
Variable P : world -> Prop.
Hypothesis P_emit : forall e w, P w -> P (emit e w).
Hypothesis P_statusCode : forall c w, P w -> P (with_statusCode c w).
Hypothesis P_failure : forall e w, P w -> P (with_failure e w).
Hypothesis P_draws : forall n w, P w -> P (with_draws n w).
Hypothesis P_send : forall r w, P w -> sent w = None -> P (with_sent (Some r) w).
Hypothesis P_insert : forall v hash, preserves P (knex.insert_returning v hash).
Hypothesis P_user : forall u w, P w -> P (with_user u w).
Hypothesis P_session : forall s w, P w -> P (with_session s w).

Lemma handlers_preserve (o : LocalStrategy.options) (stack : list express.middleware) :
  In stack (routes o) ->
  Forall (fun fn => forall next, preserves P next -> preserves P (fn next)) stack.
Proof.
  intros Hin. cbn in Hin.
  destruct Hin as [<- | [<- | [<- | [<- | [<- | []]]]]];
    repeat (match goal with |- Forall _ _ => constructor end); cbv beta; intros next Hn;
    first [ apply preserves_loginRedirect | apply preserves_loginRequired
          | apply preserves_adminRequired | apply preserves_register
          | apply preserves_login | apply preserves_logout
          | apply preserves_user_handler | apply preserves_admin_handler ];
    assumption.
Qed.

(** What the primitives keep, every route keeps, with and without
    [passport.session()] in front. *)
Lemma routes_preserve (o : LocalStrategy.options) (stack : list express.middleware) :
  In stack (routes o) ->
  preserves P (express.route stack) /\ preserves P (with_session_middleware stack).
Proof.
  intros Hin. pose proof (handlers_preserve o stack Hin) as Hst. split.
  - apply preserves_route; assumption.
  - unfold with_session_middleware. apply preserves_route; try assumption.
    constructor; [| exact Hst].
    intros next Hn. apply preserves_session_middleware; assumption.
Qed.

End all_routes.

Section route_invariants.
Context `{Bcrypt}.

(** X2.  Only registration writes to the table: the login, logout,
    user-info and admin-info routes leave [users] as it is, whatever the
    request and however it ends. *)
Theorem table_written_by_register_only (o : LocalStrategy.options) (w : world) :
  store (run (post_login o) w) = store w /\
  store (run get_logout w) = store w /\
  store (run get_user w) = store w /\
  store (run get_admin w) = store w.
Proof.
  set (P := fun w' : world => store w' = store w).
  assert (He : forall e w0, P w0 -> P (emit e w0)) by (intros ? []; auto).
  assert (Hc : forall c w0, P w0 -> P (with_statusCode c w0)) by (intros ? []; auto).
  assert (Hf : forall e w0, P w0 -> P (with_failure e w0)) by (intros ? []; auto).
  assert (Hd : forall n w0, P w0 -> P (with_draws n w0)) by (intros ? []; auto).
  assert (Hs : forall r w0, P w0 -> sent w0 = None -> P (with_sent (Some r) w0))
    by (intros ? []; auto).
  assert (Hu : forall u w0, P w0 -> P (with_user u w0)) by (intros ? []; auto).
  assert (Hss : forall s w0, P w0 -> P (with_session s w0)) by (intros ? []; auto).
  repeat split.
  - apply (preserves_route P He Hf); [| reflexivity].
    repeat (match goal with |- Forall _ _ => constructor end); cbv beta; intros next Hn;
      [now apply preserves_loginRedirect | now apply preserves_login].
  - apply (preserves_route P He Hf); [| reflexivity].
    repeat (match goal with |- Forall _ _ => constructor end); cbv beta; intros next Hn;
      [now apply preserves_loginRequired | now apply preserves_logout].
  - apply (preserves_route P He Hf); [| reflexivity].
    repeat (match goal with |- Forall _ _ => constructor end); cbv beta; intros next Hn;
      [now apply preserves_loginRequired | now apply preserves_user_handler].
  - apply (preserves_route P He Hf); [| reflexivity].
    repeat (match goal with |- Forall _ _ => constructor end); cbv beta; intros next Hn;
      [now apply preserves_adminRequired | now apply preserves_admin_handler].
Qed.

(** X3.  No route handler establishes a session: after the register, login,
    user-info and admin-info routes, [req.user] and the session entry are
    those of the incoming request, also when registration or login answers
    200.  ([handleLogin] is called on [res], and the login callback never
    calls [req.logIn].) *)
Theorem session_written_by_logout_only (o : LocalStrategy.options) (w : world) :
  (session (run post_register w) = session w /\ user (run post_register w) = user w) /\
  (session (run (post_login o) w) = session w /\ user (run (post_login o) w) = user w) /\
  (session (run get_user w) = session w /\ user (run get_user w) = user w) /\
  (session (run get_admin w) = session w /\ user (run get_admin w) = user w).
Proof.
  set (P := fun w' : world => session w' = session w /\ user w' = user w).
  assert (He : forall e w0, P w0 -> P (emit e w0)) by (intros ? []; auto).
  assert (Hc : forall c w0, P w0 -> P (with_statusCode c w0)) by (intros ? []; auto).
  assert (Hf : forall e w0, P w0 -> P (with_failure e w0)) by (intros ? []; auto).
  assert (Hd : forall n w0, P w0 -> P (with_draws n w0)) by (intros ? []; auto).
  assert (Hs : forall r w0, P w0 -> sent w0 = None -> P (with_sent (Some r) w0))
    by (intros ? []; auto).
  assert (Hst : forall d w0, P w0 -> P (with_store d w0)) by (intros ? []; auto).
  assert (Hi : forall v hash, preserves P (knex.insert_returning v hash))
    by (apply insert_keeps; assumption).
  assert (H1 : preserves P post_register).
  { apply (preserves_route P He Hf). repeat (match goal with |- Forall _ _ => constructor end); cbv beta; intros next Hn;
      [now apply preserves_loginRedirect | now apply preserves_register]. }
  assert (H2 : preserves P (post_login o)).
  { apply (preserves_route P He Hf). repeat (match goal with |- Forall _ _ => constructor end); cbv beta; intros next Hn;
      [now apply preserves_loginRedirect | now apply preserves_login]. }
  assert (H3 : preserves P get_user).
  { apply (preserves_route P He Hf). repeat (match goal with |- Forall _ _ => constructor end); cbv beta; intros next Hn;
      [now apply preserves_loginRequired | now apply preserves_user_handler]. }
  assert (H4 : preserves P get_admin).
  { apply (preserves_route P He Hf). repeat (match goal with |- Forall _ _ => constructor end); cbv beta; intros next Hn;
      [now apply preserves_adminRequired | now apply preserves_admin_handler]. }
  assert (HP : P w) by (split; reflexivity).
  exact (conj (H1 w HP) (conj (H2 w HP) (conj (H3 w HP) (H4 w HP)))).
Qed.

End route_invariants.

Section table_invariants.
Context `{Bcrypt}.


(** X5.  No route removes, changes or reorders a row: after any request on
    a reachable table, the table is reachable and starts with the rows it
    had. *)
Theorem rows_are_never_removed (o : LocalStrategy.options)
    (stack : list express.middleware) (w : world) (rows : list users.row) (n : Z) :
  In stack (routes o) ->
  store w = Online rows n ->
  keeps_rows rows (store (run (express.route stack) w)) /\
  keeps_rows rows (store (run (with_session_middleware stack) w)).
Proof.
  intros Hin Hst.
  assert (Hw : keeps_rows rows (store w)).
  { rewrite Hst. exists []. now rewrite app_nil_r. }
  destruct (routes_preserve (fun w' => keeps_rows rows (store w'))) with (o := o) (stack := stack)
    as [H1 H2]; try exact Hin; try (intros; destruct w0; assumption).
  - apply insert_keeps_rows.
  - split; [apply (H1 w Hw) | apply (H2 w Hw)].
Qed.

End table_invariants.

(** * The routes on further inputs *)

Section further.
Context `{Bcrypt}.

(** In a table with unique ids, the lookup by the id of a row finds it. *)
Lemma find_by_id (rows : list users.row) (r : users.row) :
  NoDup (map users.id rows) -> In r rows ->
  find (knex.by_id (users.id r)) rows = Some r.
Proof.
  induction rows as [|r0 rows IH]; intros Hnd Hin; [destruct Hin |].
  cbn [map] in Hnd. apply NoDup_cons in Hnd as [Hnot Hnd].
  cbn [find]. unfold knex.by_id at 1.
  destruct Hin as [-> | Hin].
  - now rewrite Z.eqb_refl.
  - destruct (Z.eqb (users.id r0) (users.id r)) eqn:E; [| now apply IH].
    apply Z.eqb_eq in E. exfalso. apply Hnot. rewrite E.
    apply list_elem_of_In, in_map, Hin.
Qed.

(** X6.  The session round trip needs [init()].  As the program stands no
    serialiser is registered: [req.logIn] fails with passport's "Failed to
    serialize user into session" and writes no session entry, and a request
    that carries a session entry ends in "Failed to deserialize user out of
    session" before any guard runs, also when its row is stored.  Once the
    function exported by [passport.js] has been called, [req.logIn] stores
    the [id] of the user, and on a later request carrying that entry,
    against a table with unique ids that holds the row, [passport.session()]
    makes exactly that row [req.user] and the route runs as for this
    user. *)
Theorem session_round_trip (w0 w : world) (rows : list users.row) (n : Z)
    (r : users.row) (stack : list express.middleware) :
  store w = Online rows n ->
  NoDup (map users.id rows) ->
  In r rows ->
  failure w = None ->
  let failed := PassportError "Failed to deserialize user out of session" in
  handleLogin the_req (Some r) w0
  = (Ok (Rejected (PassportError "Failed to serialize user into session")),
     with_user None w0) /\
  (session w = Some (users.id r) ->
   run (with_session_middleware stack) w
   = emit (NextErr failed) (with_failure (Some failed) w)) /\
  (session w
   = session (run (passport.logIn (passport_js.init authenticator) (Some r)
                     (fun _ => ret tt)) w0) ->
   run (express.route (passport.session (passport_js.init authenticator) :: stack)) w
   = run (express.route stack)
       (with_user (Some r) (emit (SelectId (users.id r)) w))).
Proof.
  intros Hst Hnd Hin Hfl failed.
  pose proof (find_by_id rows r Hnd Hin) as Hf.
  split; [now destruct w0 |].
  split.
  - intros Hss. expose w. subst ss st fl. reflexivity.
  - intros Hss.
    assert (Hs : session w = Some (users.id r)) by (rewrite Hss; now destruct w0).
    clear Hss. expose w. subst ss st.
    change (passport_js.init authenticator)
      with (passport.Registry [passport_js.serializeUser] [passport_js.deserializeUser]).
    unfold run. cbn [express.route].
    cbv -[find app knex.by_id users.id express.route]. rewrite Hf.
    match goal with
    | |- context [express.route stack ?W] =>
        pose proof (route_returns stack W) as Hr;
        destruct (express.route stack W) as [[[]|e] w2]; [| discriminate Hr]
    end.
    reflexivity.
Qed.

(** X20.  A session entry whose row is gone.  Once the deserialiser of
    [passport.js] is registered, for a request whose session entry names no
    stored row the query resolves with [undefined] and the deserialiser
    calls [done(null, undefined)].  Passport takes [null] or [false] for a
    user that was removed; [undefined] it passes to the next deserialiser,
    and there is none: the request ends in express's error handling with
    "Failed to deserialize user out of session" after one lookup, no guard
    or handler runs, and the session entry is kept, so that the next request
    of the client ends the same way. *)
Theorem stale_session_is_an_error (w : world) (su : Z) (rows : list users.row)
    (n : Z) (stack : list express.middleware) :
  session w = Some su ->
  failure w = None ->
  store w = Online rows n ->
  find (knex.by_id su) rows = None ->
  let failed := PassportError "Failed to deserialize user out of session" in
  let served := express.route (passport.session (passport_js.init authenticator) :: stack) in
  run served w
  = emit (NextErr failed) (with_failure (Some failed) (emit (SelectId su) w)) /\
  observe (run served (follow_up (run served w))) = Failed failed.
Proof.
  intros Hss Hfl Hst Hf failed served. expose w. subst ss fl st.
  subst served.
  change (passport_js.init authenticator)
    with (passport.Registry [passport_js.serializeUser] [passport_js.deserializeUser]).
  unfold run. cbn [express.route].
  cbv -[find app knex.by_id users.id express.route]. rewrite Hf.
  cbv -[find app knex.by_id users.id express.route]. rewrite Hf.
  split; reflexivity.
Qed.

(** X7.  [GET /user] on a fresh response object: without [req.user] the
    guard answers 401 "Please log in" and the handler is not reached; with
    [req.user] the handler answers 200 "success".  Nothing else changes. *)
Theorem get_user_response (w : world) :
  sent w = None ->
  run get_user w =
    match user w with
    | None =>
        emit (Sent 401 "Please log in")
          (with_sent (Some (401, "Please log in")) (with_statusCode 401 w))
    | Some _ =>
        emit (Sent 200 "success")
          (with_sent (Some (200, "success"))
             (with_statusCode 200 (emit (Reached "GET /user") w)))
    end.
Proof.
  intros Hs. expose w. subst se. destruct us; reflexivity.
Qed.

(** A client without a session entry is anonymous for [GET /user]. *)
Lemma app_get_user_anonymous (w : world) :
  session w = None -> user w = None -> sent w = None ->
  observe (run app_get_user w) = Response 401 "Please log in".
Proof.
  intros Hss Hu Hs. expose w. subst ss us se. reflexivity.
Qed.

(** X8.  Logging out.  For a logged-in caller [GET /auth/logout] answers 200
    "success", clears [req.user] and the session entry and leaves the table
    alone; the next [GET /user] of the client is answered 401 "Please log
    in".  For an anonymous caller the guard answers 401 and the handler is
    not reached. *)
Theorem logout_ends_session (w : world) :
  sent w = None ->
  match user w with
  | Some _ =>
      observe (run get_logout w) = Response 200 "success" /\
      user (run get_logout w) = None /\
      session (run get_logout w) = None /\
      store (run get_logout w) = store w /\
      observe (run app_get_user (follow_up (run get_logout w)))
      = Response 401 "Please log in"
  | None =>
      run get_logout w
      = emit (Sent 401 "Please log in")
          (with_sent (Some (401, "Please log in")) (with_statusCode 401 w))
  end.
Proof.
  intros Hs. expose w. subst se. destruct us; [| reflexivity].
  repeat split; reflexivity.
Qed.

(** X9.  A successful login establishes no session.  With the tutorial's
    options, a request of a client without a session that submits the
    username of a stored row and a password [comparePass] accepts is
    answered 200 "success"; the callback of the route never calls
    [req.logIn], so the client's next [GET /user] is answered 401 "Please
    log in". *)
Theorem login_success_without_session (w : world) (rows : list users.row) (n : Z)
    (u p : string) (r : users.row) :
  submits u p w ->
  u <> "" ->
  p <> "" ->
  session w = None ->
  store w = Online rows n ->
  find (knex.by_username u) rows = Some r ->
  compare_result p (users.password r) = Ok true ->
  observe (run (post_login options_tutorial) w) = Response 200 "success" /\
  observe (run app_get_user (follow_up (run (post_login options_tutorial) w)))
  = Response 401 "Please log in".
Proof.
  intros (Hu & Hs & Hbu & Hbp & _ & Hq) Hne Hpne Hss Hst Hf Hc.
  apply String.eqb_neq in Hne, Hpne.
  expose w. subst us se qr st ss.
  unfold run, app_get_user, post_login. steps.
  rewrite !comparePass_result, Hc. split; reflexivity.
Qed.
(** X10.  A store failure during login.  With the tutorial's options, when
    the lookup of the username is rejected, the callback of the route
    answers 500 "error" and then goes on to its [!user] test: the 404 it
    writes next is refused, and 500 stays the response. *)
Theorem login_store_error (w : world) (u p reason : string) :
  submits u p w ->
  u <> "" ->
  p <> "" ->
  store w = Offline reason ->
  observe (run (post_login options_tutorial) w) = Response 500 "error" /\
  trace (run (post_login options_tutorial) w)
  = (trace w ++ [Reached "POST /auth/login"; Sent 500 "error";
                 Unhandled HeadersSent])%list.
Proof.
  intros (Hu & Hs & Hbu & Hbp & _ & Hq) Hne Hpne Hst.
  apply String.eqb_neq in Hne, Hpne.
  expose w. subst us se qr st.
  unfold run, post_login. steps. cbn [trace]. rewrite <- !app_assoc.
  split; reflexivity.
Qed.

(** X11.  [POST /auth/register] on a fresh response object always answers,
    and with 200, 400 or 401: the [catch] of [createUser] answers every
    failure, of the validation, of bcrypt and of the store, so the 500
    "error" of the route is never the response. *)
Theorem register_answers (w : world) :
  sent w = None ->
  exists code msg,
    observe (run post_register w) = Response code msg /\
    (code = 200 \/ code = 400 \/ code = 401).
Proof.
  intros Hs.
  destruct (user w) as [u|] eqn:Hu.
  { exists 401, "You are already logged in". expose w. subst se us.
    split; [reflexivity | auto]. }
  set (w1 := emit (Reached "POST /auth/register") w).
  assert (Hs1 : sent w1 = None) by (subst w1; now destruct w).
  destruct (createUser_outcome w1 Hs1) as
    [(v & name & p & h & rows & n & _ & _ & _ & _ & _ & Hc)
    |(msg & w' & Hc & Hsent & _)].
  - exists 200, "success". split; [| auto].
    subst w1. expose w. subst se us.
    unfold run, post_register. keep_createUser_in Hc. keep_createUser.
    rewrite Hc. reflexivity.
  - exists 400, msg. split; [| auto].
    subst w1. expose w. subst se us.
    destruct w' as [st' bd' qr' us' ss' sc' se' fl' en' dr' tr'].
    cbn in Hsent. subst se'.
    unfold run, post_register. keep_createUser_in Hc. keep_createUser.
    rewrite Hc. reflexivity.
Qed.

(** X12.  A store failure during registration.  When the insert is
    rejected because the database cannot be reached, the client receives
    400 with the message of the database error as its [status]. *)
Theorem register_store_error (w : world) (u p h reason : string) :
  user w = None ->
  sent w = None ->
  body w !! "username" = Some (JStr u) ->
  body w !! "password" = Some (JStr p) ->
  6 <= String.length u ->
  6 <= String.length p ->
  _hash p (entropy w (draws w)) = Ok h ->
  store w = Offline reason ->
  observe (run post_register w) = Response 400 reason.
Proof.
  intros Hu Hs Hbu Hbp Hlu Hlp Hh Hst.
  apply Nat.ltb_ge in Hlu, Hlp.
  expose w. subst us se st.
  unfold run, post_register. steps. reflexivity.
Qed.

(** X13.  Registering a username that is taken: the unique constraint
    refuses the row after its [id] was drawn.  The answer is 400, the table
    keeps its rows, and the sequence has moved on by one, so the next
    registration skips an [id]. *)
Theorem register_taken_username (w : world) (u p h : string)
    (rows : list users.row) (n : Z) :
  user w = None ->
  sent w = None ->
  body w !! "username" = Some (JStr u) ->
  body w !! "password" = Some (JStr p) ->
  6 <= String.length u <= 255 ->
  6 <= String.length p ->
  _hash p (entropy w (draws w)) = Ok h ->
  store w = Online rows n ->
  existsb (knex.by_username u) rows = true ->
  (exists msg, observe (run post_register w) = Response 400 msg) /\
  store (run post_register w) = Online rows (n + 1).
Proof.
  intros Hu Hs Hbu Hbp [Hlu Hmax] Hlp Hh Hst Hdup.
  apply Nat.ltb_ge in Hlu, Hlp, Hmax.
  expose w. subst us se st.
  unfold run, post_register. steps.
  split; [eexists |]; reflexivity.
Qed.

(** X14.  A register request without a [username] field, or with [null]
    for it: reading its [length] throws inside the executor of
    [handleErrors], the answer is 400 and nothing is inserted. *)
Theorem register_without_username (w : world) :
  user w = None ->
  sent w = None ->
  body w !! "username" = None \/ body w !! "username" = Some JNull ->
  (exists msg, observe (run post_register w) = Response 400 msg) /\
  store (run post_register w) = store w.
Proof.
  intros Hu Hs Hb. expose w. subst us se.
  unfold run, post_register.
  destruct Hb as [Hb | Hb]; steps; (split; [eexists |]; reflexivity).
Qed.

(** X15.  The length validation only binds strings.  A [username] that is
    a JSON number, here a safe integer, has no [length], the test
    [undefined < 6] is false, and the registration goes through: the row is
    stored under the decimal numeral of the number, however short. *)
Theorem register_numeric_username (w : world) (k : number) (p h : string)
    (rows : list users.row) (n : Z) :
  user w = None ->
  sent w = None ->
  body w !! "username" = Some (JNum k) ->
  body w !! "password" = Some (JStr p) ->
  6 <= String.length p ->
  _hash p (entropy w (draws w)) = Ok h ->
  store w = Online rows n ->
  String.length (decimal k) <= 255 ->
  existsb (knex.by_username (decimal k)) rows = false ->
  observe (run post_register w) = Response 200 "success" /\
  store (run post_register w)
  = Online (rows ++ [users.defaults n (decimal k) h]) (n + 1).
Proof.
  intros Hu Hs Hbu Hbp Hlp Hh Hst Hlen Hdup.
  apply Nat.ltb_ge in Hlp, Hlen.
  expose w. subst us se st.
  unfold run, post_register. steps. split; reflexivity.
Qed.

(** X16.  When the handler of [GET /admin] runs.  On a fresh response
    object the handler behind [adminRequired] is reached exactly when
    [req.user] is set and a row is stored under its username, whatever the
    [admin] flag of that row. *)
Theorem admin_handler_reached (w : world) :
  sent w = None ->
  ~ In (Reached "GET /admin") (trace w) ->
  In (Reached "GET /admin") (trace (run get_admin w)) <->
  exists u rows n r,
    user w = Some u /\ store w = Online rows n /\
    find (knex.by_username (users.username u)) rows = Some r.
Proof.
  intros Hs Hnot. expose w. subst se.
  assert (Hyes : forall l, In (Reached "GET /admin") l ->
                           In (Reached "GET /admin") (tr ++ l))
    by (intros l Hl; apply in_app_iff; now right).
  assert (Hno : forall l, ~ In (Reached "GET /admin") l ->
                          ~ In (Reached "GET /admin") (tr ++ l))
    by (intros l Hl Hin; apply in_app_iff in Hin as [Hin | Hin]; auto).
  unfold run, get_admin.
  destruct us as [u|].
  - destruct st as [rows n|reason].
    + destruct (find (knex.by_username (users.username u)) rows) as [r|] eqn:Hf.
      * split; [intros _; exists u, rows, n, r; auto |].
        intros _. exec. rewrite Hf.
        destruct (users.admin r); [| destruct fl]; cbn [trace];
          rewrite <- ?app_assoc; apply Hyes; cbn; auto.
      * split; [| intros (u' & rows' & n' & r' & Hu' & Hst' & Hf');
                  injection Hu' as <-; injection Hst' as <- <-; congruence].
        intros Hin. exfalso. revert Hin. exec. rewrite Hf. cbn [trace].
        rewrite <- ?app_assoc. apply Hno. cbn. intuition discriminate.
    + split; [| intros (u' & rows' & n' & r' & _ & Hst' & _); discriminate Hst'].
      intros Hin. exfalso. revert Hin. exec. cbn [trace].
      rewrite <- ?app_assoc. apply Hno. cbn. intuition discriminate.
  - split; [| intros (u' & rows' & n' & r' & Hu' & _); discriminate Hu'].
    intros Hin. exfalso. revert Hin. exec. destruct fl; cbn [trace];
      rewrite <- ?app_assoc; apply Hno; cbn; intuition discriminate.
Qed.

(** X17.  The errors of the verify callback.  With a [done] that returns
    normally: when the lookup is rejected, [done] receives the error of the
    store and nothing else happens; when [comparePass] throws on the stored
    hash, [done] receives that error.  In neither case is [done(null,
    false)] or [done(null, user)] called. *)
Theorem verify_reports_errors (w : world) (username pw : string) (done : callback) :
  (forall e u w0, fst (done e u w0) = Ok tt) ->
  match store w with
  | Offline reason =>
      verify (AVal (JStr username)) (AVal (JStr pw)) (AFun done) w
      = done (Some (StoreError reason)) UUndefined w
  | Online rows _ =>
      forall r e,
        find (knex.by_username username) rows = Some r ->
        compare_result pw (users.password r) = Throw e ->
        verify (AVal (JStr username)) (AVal (JStr pw)) (AFun done) w
        = done (Some e) UUndefined
            (emit (Compared pw (users.password r))
               (emit (Select "username" username) w))
  end.
Proof.
  intros Hdone. pose proof (returns_normally done Hdone) as Hret.
  destruct (store w) as [rows n|reason] eqn:Hst.
  - intros r e Hf Hc.
    unfold verify, detach, catch_, then_, knex.where_username_first, promise,
      bind, get, modify, ret, call.
    rewrite Hst. cbn [knex.binding_of]. rewrite Hf, comparePass_result, Hc.
    rewrite Hret. reflexivity.
  - unfold verify, detach, catch_, then_, knex.where_username_first, promise,
      bind, get, modify, ret, call.
    rewrite Hst, Hret. reflexivity.
Qed.

(** Registration keeps [req.user] and the session entry. *)
Lemma register_keeps_session (w : world) :
  session (run post_register w) = session w.
Proof.
  set (P := fun w' : world => session w' = session w).
  assert (He : forall e w0, P w0 -> P (emit e w0)) by (intros ? []; auto).
  assert (Hc : forall c w0, P w0 -> P (with_statusCode c w0)) by (intros ? []; auto).
  assert (Hf : forall e w0, P w0 -> P (with_failure e w0)) by (intros ? []; auto).
  assert (Hd : forall n w0, P w0 -> P (with_draws n w0)) by (intros ? []; auto).
  assert (Hs : forall r w0, P w0 -> sent w0 = None -> P (with_sent (Some r) w0))
    by (intros ? []; auto).
  assert (Hst : forall d w0, P w0 -> P (with_store d w0)) by (intros ? []; auto).
  assert (Hi : forall v hash, preserves P (knex.insert_returning v hash))
    by (apply insert_keeps; assumption).
  assert (H1 : preserves P post_register).
  { apply (preserves_route P He Hf).
    repeat (match goal with |- Forall _ _ => constructor end); cbv beta;
      intros next Hn;
      [now apply preserves_loginRedirect | now apply preserves_register]. }
  apply (H1 w). reflexivity.
Qed.

(** X18.  Registration logs nobody in.  Whatever [POST /auth/register]
    answers, 200 included, [handleLogin] has been given [res] instead of
    [req]: no session entry is written, and the next [GET /user] of a
    client that had no session is answered 401 "Please log in". *)
Theorem register_then_user_info (w : world) :
  session w = None ->
  observe (run app_get_user (follow_up (run post_register w)))
  = Response 401 "Please log in".
Proof.
  intros Hss. apply app_get_user_anonymous; try reflexivity.
  cbn [follow_up session]. rewrite register_keeps_session. exact Hss.
Qed.

End further.

Section seeding.
Context `{Bcrypt}.

(** X19.  Seeding.  On a reachable table, whatever it held, the seed
    leaves exactly two rows: [jeremy], not an administrator, and [kelly],
    an administrator, under the next two ids.  On that table
    [adminRequired] lets a caller whose [req.user] is named [kelly] through
    to 200 "success" and answers one named [jeremy] with 401 "You are not
    authorized". *)
Theorem seed_then_admin (w : world) (rows : list users.row) (n : Z) (h1 h2 : string) :
  store w = Online rows n ->
  _hash "johnson123" (entropy w (draws w)) = Ok h1 ->
  _hash "bryant123" (entropy w (S (draws w))) = Ok h2 ->
  let jeremy := {| users.id := n; users.username := "jeremy"; users.password := h1;
                   users.admin := false;
                   users.created_at := None; users.updated_at := None |} in
  let kelly := {| users.id := (n + 1)%Z; users.username := "kelly";
                  users.password := h2; users.admin := true;
                  users.created_at := None; users.updated_at := None |} in
  fst (seeds.seed w) = Ok (Fulfilled tt) /\
  store (snd (seeds.seed w)) = Online [jeremy; kelly] (n + 1 + 1) /\
  forall w' u,
    store w' = store (snd (seeds.seed w)) ->
    user w' = Some u ->
    sent w' = None ->
    (users.username u = "kelly" ->
       observe (run get_admin w') = Response 200 "success") /\
    (users.username u = "jeremy" ->
       observe (run get_admin w') = Response 401 "You are not authorized").
Proof.
  intros Hst Hh1 Hh2 jeremy kelly.
  assert (Hseed : seeds.seed w
                  = (Ok (Fulfilled tt),
                     emit (Inserted kelly)
                       (with_store (Online [jeremy; kelly] (n + 1 + 1))
                          (with_draws (S (S (draws w)))
                             (emit (Inserted jeremy) w))))).
  { subst jeremy kelly. expose w. subst st.
    unfold seeds.seed.
    cbv -[_hash Z.add]. rewrite Hh1. cbv -[_hash Z.add]. rewrite Hh2.
    reflexivity. }
  rewrite Hseed. cbn [fst snd].
  split; [reflexivity | split; [reflexivity |]].
  intros w' u Hst' Hu' Hs'.
  destruct w' as [st' bd' qr' us' ss' sc' se' fl' en' dr' tr'].
  cbn in Hst', Hu', Hs'. subst st' us' se'.
  destruct u as [i nm pw ad ca ua]. cbn [users.username].
  split; intros ->; [reflexivity | destruct fl'; reflexivity].
Qed.

End seeding.

(** * The further properties on the sample requests *)


Lemma rows_are_never_removed_witness :
  keeps_rows [sample.jeremy; sample.kelly]
    (store (run (express.route [loginRedirect; @register sample.hasher])
              examples.register_michael)) /\
  keeps_rows [sample.jeremy; sample.kelly]
    (store (run (with_session_middleware [loginRedirect; @register sample.hasher])
              examples.register_michael)).
Proof.
  apply (@rows_are_never_removed sample.hasher options) with (n := 3%Z).
  - left. reflexivity.
  - reflexivity.
Defined.

Lemma session_round_trip_witness :
  @handleLogin the_req (Some sample.jeremy) more_examples.anonymous
  = (Ok (Rejected (PassportError "Failed to serialize user into session")),
     more_examples.anonymous) /\
  observe (run (with_session_middleware [loginRequired; user_handler])
             more_examples.session_of_jeremy)
  = Failed (PassportError "Failed to deserialize user out of session") /\
  observe (run (express.route (passport.session (passport_js.init authenticator)
                                 :: [loginRequired; user_handler]))
             more_examples.session_of_jeremy)
  = Response 200 "success".
Proof.
  destruct (session_round_trip more_examples.anonymous more_examples.session_of_jeremy
              [sample.jeremy; sample.kelly] 3 sample.jeremy [loginRequired; user_handler]
              eq_refl)
    as (Hlogin & Hstands & Hinit).
  - apply (bool_decide_unpack _). vm_compute. exact I.
  - left. reflexivity.
  - reflexivity.
  - split; [exact Hlogin |].
    split; [rewrite (Hstands eq_refl) | rewrite (Hinit eq_refl)]; reflexivity.
Defined.

Lemma stale_session_is_an_error_witness :
  run (express.route (passport.session (passport_js.init authenticator)
                        :: [loginRequired; user_handler]))
    examples.stale_session
  = emit (NextErr (PassportError "Failed to deserialize user out of session"))
      (with_failure (Some (PassportError "Failed to deserialize user out of session"))
         (emit (SelectId 7) examples.stale_session)).
Proof.
  exact (proj1 (stale_session_is_an_error examples.stale_session 7
                  [sample.jeremy; sample.kelly] 3 [loginRequired; user_handler]
                  eq_refl eq_refl eq_refl eq_refl)).
Defined.

Lemma get_user_response_witness :
  run get_user examples.as_jeremy
  = emit (Sent 200 "success")
      (with_sent (Some (200, "success"))
         (with_statusCode 200 (emit (Reached "GET /user") examples.as_jeremy))).
Proof.
  exact (get_user_response examples.as_jeremy eq_refl).
Defined.

Lemma logout_ends_session_witness :
  observe (run get_logout examples.as_jeremy) = Response 200 "success" /\
  user (run get_logout examples.as_jeremy) = None /\
  session (run get_logout examples.as_jeremy) = None /\
  store (run get_logout examples.as_jeremy) = sample.seeded /\
  observe (run app_get_user (follow_up (run get_logout examples.as_jeremy)))
  = Response 401 "Please log in".
Proof.
  exact (logout_ends_session examples.as_jeremy eq_refl).
Defined.

Lemma login_success_without_session_witness :
  observe (run (@post_login sample.hasher options_tutorial) examples.login_jeremy)
  = Response 200 "success" /\
  observe (run app_get_user
             (follow_up (run (@post_login sample.hasher options_tutorial)
                           examples.login_jeremy)))
  = Response 401 "Please log in".
Proof.
  apply (@login_success_without_session sample.hasher examples.login_jeremy
           [sample.jeremy; sample.kelly] 3 "jeremy" "johnson123" sample.jeremy).
  - repeat split; reflexivity.
  - discriminate.
  - discriminate.
  - reflexivity.
  - reflexivity.
  - reflexivity.
  - reflexivity.
Defined.

Lemma login_store_error_witness :
  observe (run (@post_login sample.hasher options_tutorial) more_examples.login_offline)
  = Response 500 "error" /\
  trace (run (@post_login sample.hasher options_tutorial) more_examples.login_offline)
  = [Reached "POST /auth/login"; Sent 500 "error"; Unhandled HeadersSent].
Proof.
  apply (@login_store_error sample.hasher more_examples.login_offline
           "jeremy" "johnson123" "connection refused").
  - repeat split; reflexivity.
  - discriminate.
  - discriminate.
  - reflexivity.
Defined.

Lemma register_answers_witness :
  exists code msg,
    observe (run (@post_register sample.hasher) examples.register_michael)
    = Response code msg /\
    (code = 200 \/ code = 400 \/ code = 401).
Proof.
  exact (@register_answers sample.hasher examples.register_michael eq_refl).
Defined.

Lemma register_store_error_witness :
  observe (run (@post_register sample.hasher) more_examples.register_offline)
  = Response 400 "connection refused".
Proof.
  apply (@register_store_error sample.hasher more_examples.register_offline
           "michael" "herman1" (sample.hash "herman1") "connection refused");
    try reflexivity; vm_compute; lia.
Defined.

Lemma register_taken_username_witness :
  (exists msg,
      observe (run (@post_register sample.hasher) more_examples.register_taken)
      = Response 400 msg) /\
  store (run (@post_register sample.hasher) more_examples.register_taken)
  = Online [sample.jeremy; sample.kelly] 4.
Proof.
  apply (@register_taken_username sample.hasher more_examples.register_taken
           "jeremy" "herman1" (sample.hash "herman1") [sample.jeremy; sample.kelly] 3);
    try reflexivity; vm_compute; lia.
Defined.

Lemma register_without_username_witness :
  (exists msg,
      observe (run (@post_register sample.hasher) more_examples.register_no_username)
      = Response 400 msg) /\
  store (run (@post_register sample.hasher) more_examples.register_no_username)
  = sample.seeded.
Proof.
  apply (@register_without_username sample.hasher more_examples.register_no_username);
    try reflexivity.
  left. reflexivity.
Defined.

Lemma register_numeric_username_witness :
  observe (run (@post_register sample.hasher) more_examples.register_number)
  = Response 200 "success" /\
  store (run (@post_register sample.hasher) more_examples.register_number)
  = Online ([sample.jeremy; sample.kelly]
              ++ [users.defaults 3 "5" (sample.hash "herman1")]) 4.
Proof.
  apply (@register_numeric_username sample.hasher more_examples.register_number
           (Number 5 I) "herman1" (sample.hash "herman1") [sample.jeremy; sample.kelly] 3);
    try reflexivity; vm_compute; lia.
Defined.

Lemma admin_handler_reached_witness :
  In (Reached "GET /admin") (trace (run get_admin examples.as_jeremy)) <->
  exists u rows n r,
    user examples.as_jeremy = Some u /\ store examples.as_jeremy = Online rows n /\
    find (knex.by_username (users.username u)) rows = Some r.
Proof.
  apply (admin_handler_reached examples.as_jeremy).
  - reflexivity.
  - simpl. tauto.
Defined.

Lemma verify_reports_errors_witness :
  @verify sample.hasher (AVal (JStr "jeremy")) (AVal (JStr "johnson123"))
    (AFun (fun _ _ => ret tt)) more_examples.login_offline
  = (Ok tt, more_examples.login_offline).
Proof.
  exact (@verify_reports_errors sample.hasher more_examples.login_offline
           "jeremy" "johnson123" (fun _ _ => ret tt) (fun _ _ _ => eq_refl)).
Defined.

Lemma register_then_user_info_witness :
  observe (run (@post_register sample.hasher) examples.register_michael)
  = Response 200 "success" /\
  observe (run app_get_user
             (follow_up (run (@post_register sample.hasher) examples.register_michael)))
  = Response 401 "Please log in".
Proof.
  split.
  - reflexivity.
  - exact (@register_then_user_info sample.hasher examples.register_michael eq_refl).
Defined.

Lemma seed_then_admin_witness :
  store (snd (@seeds.seed sample.hasher more_examples.anonymous))
  = Online [users.Row 3 "jeremy" (sample.hash "johnson123") false None None;
            users.Row 4 "kelly" (sample.hash "bryant123") true None None] 5 /\
  observe (run get_admin
             (sample.request
                (store (snd (@seeds.seed sample.hasher more_examples.anonymous)))
                ∅ ∅ (Some sample.kelly) None))
  = Response 200 "success".
Proof.
  destruct (@seed_then_admin sample.hasher more_examples.anonymous
              [sample.jeremy; sample.kelly] 3
              (sample.hash "johnson123") (sample.hash "bryant123")
              eq_refl eq_refl eq_refl) as (_ & Hstore & Hadmin).
  split.
  - exact Hstore.
  - apply (Hadmin _ sample.kelly); reflexivity.
Defined.
